(** * Telco churn service: preprocessing, training features and HTTP handlers

    A shallow embedding of [app.py] (the Flask serving endpoint) and of the
    data-preparation half of [model_training.py].

    Conventions of the embedding.
    - A Python dict that came out of a JSON object (and the one-row
      [pandas.DataFrame] built from it) is an association list in
      insertion order; keys are unique, as in a dict.
    - Python exceptions are an explicit [result] type; the handlers, which
      read the module-level globals [model], [label_encoders] and [scaler],
      run in a small state-and-exception monad over [app_state].
    - float64 is idealised: a finite float is a rational, with [NaN] and the
      two infinities kept apart.  Rounding is not modelled.
    - The two string-to-number parsers of the libraries ([pandas.to_numeric]
      and the float conversion done by scikit-learn's input validation) are
      parameters of the development. *)

From Stdlib Require Import String Ascii List ZArith QArith Bool Lia Permutation.
Import ListNotations.

Open Scope string_scope.
Open Scope list_scope.

(** ** Python values *)

Inductive float64 : Type :=
| NaN
| Inf (negative : bool)
| Fin (q : Q).

(** The scalars [json.loads] can put in a flat JSON object. *)
Inductive value : Type :=
| VNone
| VBool (b : bool)
| VInt (z : Z)
| VFloat (f : float64)
| VStr (s : string).

(** [v == n] for an integer literal [n] (Python and numpy agree here:
    [True == 1], [1.0 == 1], and a string is never equal to a number). *)
Definition eq_int (v : value) (n : Z) : bool :=
  match v with
  | VInt z => Z.eqb z n
  | VBool b => Z.eqb (if b then 1 else 0) n
  | VFloat (Fin q) => Qeq_bool q (inject_Z n)
  | _ => false
  end.

(** [v == s] for a string literal [s]. *)
Definition eq_str (v : value) (s : string) : bool :=
  match v with
  | VStr t => String.eqb t s
  | _ => false
  end.

(** [pandas.isna] on one cell. *)
Definition isna (v : value) : bool :=
  match v with
  | VNone => true
  | VFloat NaN => true
  | _ => false
  end.

(** ** Exceptions *)

Inductive exn : Type :=
| KeyError (key : string)
| ValueError (msg : string)
| TypeError (msg : string)
| AttributeError (msg : string)
| HTTPException (msg : string).

(** [str(e)] *)
Definition exn_str (e : exn) : string :=
  match e with
  | KeyError k => "'" ++ k ++ "'"
  | ValueError m | TypeError m | AttributeError m | HTTPException m => m
  end.

Inductive result (A : Type) : Type :=
| Ok (a : A)
| Raise (e : exn).
Arguments Ok {A} a.
Arguments Raise {A} e.

Definition rbind {A B} (r : result A) (k : A -> result B) : result B :=
  match r with
  | Ok a => k a
  | Raise e => Raise e
  end.

Declare Scope result_scope.
Delimit Scope result_scope with res.
Notation "x <- r ;; k" := (rbind r (fun x => k))
  (at level 61, r at next level, right associativity) : result_scope.

Definition is_ok {A} (r : result A) : bool :=
  match r with Ok _ => true | Raise _ => false end.

(** ** Dicts and one-row data frames *)

Definition dict (A : Type) := list (string * A).

Fixpoint lookup {A} (k : string) (d : dict A) : option A :=
  match d with
  | [] => None
  | (k', v) :: d' => if String.eqb k k' then Some v else lookup k d'
  end.

(** [k in d] *)
Definition mem {A} (k : string) (d : dict A) : bool :=
  match lookup k d with Some _ => true | None => false end.

(** [d[k] = v]: an existing key keeps its position, a new one goes last. *)
Fixpoint set_item {A} (k : string) (v : A) (d : dict A) : dict A :=
  match d with
  | [] => [(k, v)]
  | (k', v') :: d' =>
      if String.eqb k k' then (k', v) :: d' else (k', v') :: set_item k v d'
  end.

Definition keys {A} (d : dict A) : list string := map fst d.

(** A row of a data frame; also the record sent to [/predict]. *)
Definition frame := dict value.

(** [df[col]] *)
Definition get_col (col : string) (df : frame) : result value :=
  match lookup col df with
  | Some v => Ok v
  | None => Raise (KeyError col)
  end.

(** [df[[c1, ..., cn]]] *)
Fixpoint get_cols (cols : list string) (df : frame) : result (list value) :=
  match cols with
  | [] => Ok []
  | c :: cs =>
      match get_col c df, get_cols cs df with
      | Ok v, Ok vs => Ok (v :: vs)
      | Raise e, _ => Raise e
      | _, Raise e => Raise e
      end
  end.

(** ** The column lists of the source *)

Definition categorical_columns : list string :=
  ["gender"; "Partner"; "Dependents"; "PhoneService";
   "MultipleLines"; "InternetService"; "OnlineSecurity";
   "OnlineBackup"; "DeviceProtection"; "TechSupport";
   "StreamingTV"; "StreamingMovies"; "Contract";
   "PaperlessBilling"; "PaymentMethod"].

Definition service_columns : list string :=
  ["PhoneService"; "OnlineSecurity"; "OnlineBackup";
   "DeviceProtection"; "TechSupport"; "StreamingTV";
   "StreamingMovies"].

Definition feature_columns : list string :=
  ["SeniorCitizen"; "tenure"; "MonthlyCharges"; "TotalCharges";
   "gender"; "Partner"; "Dependents"; "PhoneService"; "MultipleLines";
   "InternetService"; "OnlineSecurity"; "OnlineBackup"; "DeviceProtection";
   "TechSupport"; "StreamingTV"; "StreamingMovies"; "Contract";
   "PaperlessBilling"; "PaymentMethod"; "NEW_Engaged"; "NEW_TotalServices"].

(** ** scikit-learn's LabelEncoder *)

Record LabelEncoder : Type := { classes_ : list string }.

Fixpoint index_of (s : string) (l : list string) : option nat :=
  match l with
  | [] => None
  | x :: l' =>
      if String.eqb s x then Some O
      else match index_of s l' with
           | Some i => Some (S i)
           | None => None
           end
  end.

(** [le.transform(column)] on a one-cell column: the position of the label
    in [classes_], a [ValueError] for a value that is not one of them. *)
Definition le_transform (le : LabelEncoder) (v : value) : result value :=
  match v with
  | VStr s =>
      match index_of s (classes_ le) with
      | Some i => Ok (VInt (Z.of_nat i))
      | None => Raise (ValueError ("y contains previously unseen labels: " ++ s))
      end
  | _ => Raise (ValueError "y contains previously unseen labels")
  end.

(** [classes_] after [fit]: the distinct labels in sorted order. *)
Fixpoint insert_sorted (s : string) (l : list string) : list string :=
  match l with
  | [] => [s]
  | x :: l' =>
      match String.compare s x with
      | Lt => s :: l
      | Eq => l
      | Gt => x :: insert_sorted s l'
      end
  end.

Definition sorted_unique (l : list string) : list string :=
  fold_right insert_sorted [] l.

(** ** scikit-learn's StandardScaler *)

Record StandardScaler : Type := { mean_ : list Q; scale_ : list Q }.

Definition n_features_in_ (sc : StandardScaler) : nat := length (mean_ sc).

Definition standardize (x : float64) (m s : Q) : float64 :=
  match x with
  | Fin q => Fin ((q - m) / s)%Q
  | other => other
  end.

Fixpoint standardize_all (xs : list float64) (ms ss : list Q) : list float64 :=
  match xs, ms, ss with
  | x :: xs', m :: ms', s :: ss' => standardize x m s :: standardize_all xs' ms' ss'
  | _, _, _ => []
  end.

Definition is_inf (x : float64) : bool :=
  match x with Inf _ => true | _ => false end.

(** ** A concrete parser of plain decimal literals

    Used to instantiate the two library parsers at concrete inputs:
    an optional minus sign, digits, and an optional fractional part. *)

Definition digit_of (c : ascii) : option Z :=
  let n := nat_of_ascii c in
  if (48 <=? n)%nat && (n <=? 57)%nat then Some (Z.of_nat (n - 48)) else None.

Fixpoint digits (s : string) (acc : Z) : option Z :=
  match s with
  | EmptyString => Some acc
  | String c s' =>
      match digit_of c with
      | Some d => digits s' (10 * acc + d)%Z
      | None => None
      end
  end.

Fixpoint split_dot (s : string) : string * option string :=
  match s with
  | EmptyString => (EmptyString, None)
  | String c s' =>
      if Ascii.eqb c "."%char then (EmptyString, Some s')
      else let (i, f) := split_dot s' in (String c i, f)
  end.

Definition parse_unsigned (s : string) : option Q :=
  match split_dot s with
  | (EmptyString, _) => None
  | (i, None) => option_map inject_Z (digits i 0)
  | (i, Some f) =>
      match digits i 0, digits f 0 with
      | Some a, Some b =>
          let p := (10 ^ Z.of_nat (String.length f))%Z in
          Some (Qmake (a * p + b) (Z.to_pos p))
      | _, _ => None
      end
  end.

Definition parse_decimal (s : string) : option float64 :=
  match s with
  | String "-"%char s' => option_map (fun q => Fin (- q)%Q) (parse_unsigned s')
  | _ => option_map Fin (parse_unsigned s)
  end.

(** ** Process-wide state *)

(** The classifier is opaque: a type name and the two prediction methods,
    each returning the first row of its answer or raising. *)
Record classifier : Type := {
  clf_type_name : string;
  clf_predict : list float64 -> result Z;
  clf_predict_proba : list float64 -> result (float64 * float64)
}.

(** The three module-level globals of [app.py]. *)
Record app_state : Type := {
  model : option classifier;
  label_encoders : dict LabelEncoder;
  scaler : option StandardScaler
}.

(** [model = None; label_encoders = {}; scaler = None] *)
Definition initial_state : app_state :=
  {| model := None; label_encoders := []; scaler := None |}.

(** ** The handler monad: global state and exceptions *)

Definition M (A : Type) : Type := app_state -> result A * app_state.

Definition ret {A} (a : A) : M A := fun s => (Ok a, s).

Definition raise {A} (e : exn) : M A := fun s => (Raise e, s).

Definition bind {A B} (m : M A) (k : A -> M B) : M B :=
  fun s =>
    match m s with
    | (Ok a, s') => k a s'
    | (Raise e, s') => (Raise e, s')
    end.

(** Read a global. *)
Definition gets {A} (proj : app_state -> A) : M A := fun s => (Ok (proj s), s).

(** Rebind the globals (only [load_model] declares them [global]). *)
Definition put (s' : app_state) : M unit := fun _ => (Ok tt, s').

(** A computation that touches no global. *)
Definition lift {A} (r : result A) : M A := fun s => (r, s).

(** [try: body except Exception as e: handler(e)] *)
Definition try_except {A} (body : M A) (handler : exn -> M A) : M A :=
  fun s =>
    match body s with
    | (Ok a, s') => (Ok a, s')
    | (Raise e, s') => handler e s'
    end.

Declare Scope handler_scope.
Delimit Scope handler_scope with M.
Notation "x <- m ;; k" := (bind m (fun x => k))
  (at level 61, m at next level, right associativity) : handler_scope.

(** [for x in xs: acc = body(x, acc)] *)
Fixpoint for_each {A S} (xs : list A) (body : A -> S -> M S) (acc : S) : M S :=
  match xs with
  | [] => ret acc
  | x :: xs' => bind (body x acc) (for_each xs' body)
  end.

(** The same loop for a body that reads no global. *)
Fixpoint for_each_pure {A S} (xs : list A) (body : A -> S -> result S) (acc : S)
  : result S :=
  match xs with
  | [] => Ok acc
  | x :: xs' => rbind (body x acc) (for_each_pure xs' body)
  end.

(** ** Requests and responses *)

(** What [request.get_json()] hands to the handler: [None], a dict, or
    another JSON value (list, string, number, boolean), of which only the
    truth value matters. *)
Inductive pydata : Type :=
| DNone
| DDict (r : frame)
| DOther (truthy : bool).

(** [bool(data)] *)
Definition truthy (d : pydata) : bool :=
  match d with
  | DNone => false
  | DDict [] => false
  | DDict (_ :: _) => true
  | DOther b => b
  end.

(** A request is the outcome of [request.get_json()]: a value, or the
    exception the framework raises for a body it cannot read. *)
Definition request := result pydata.

Inductive jvalue : Type :=
| JStr (s : string)
| JInt (z : Z)
| JFloat (f : float64)
| JBool (b : bool).

(** [(jsonify(body), status)] *)
Definition response : Type := dict jvalue * Z.

Definition status_code (r : response) : Z := snd r.
Definition body (r : response) : dict jvalue := fst r.

Section Pipeline.

(** [pandas.to_numeric] on one string cell: the number it denotes, if any. *)
Variable pd_parse : string -> option float64.

(** The float a string cell converts to when scikit-learn's input
    validation casts an object column to float64, if any. *)
Variable py_float : string -> option float64.

(** ** Column transforms shared by serving and training *)

(** [pd.to_numeric(cell, errors='coerce')] *)
Definition to_numeric_coerce (v : value) : value :=
  match v with
  | VStr s =>
      match pd_parse s with
      | Some f => VFloat f
      | None => VFloat NaN
      end
  | VNone => VFloat NaN
  | other => other
  end.

(** One cell of [column.fillna(other)]: a missing cell takes the other
    column's cell of the same row, unless that one is missing too. *)
Definition fillna (v other : value) : value :=
  if isna v then (if isna other then v else other) else v.

(** ** [app.py]: [preprocess_input] *)

(** [pd.DataFrame([data])]: for a dict, one row with the dict's keys as
    columns; any other value gives a frame whose column labels are integers,
    so that no column has a name. *)
Definition DataFrame (data : pydata) : frame :=
  match data with
  | DDict r => r
  | _ => []
  end.

(** Lines 51-52: the body of the encoding loop. *)
Definition encode_column (encs : dict LabelEncoder) (col : string) (df : frame)
  : result frame :=
  match lookup col df, lookup col encs with
  | Some v, Some le =>
      match le_transform le v with
      | Ok v' => Ok (set_item col v' df)
      | Raise e => Raise e
      end
  | _, _ => Ok df
  end.

(** Lines 55-56.  The in-place [fillna] on the column selected from [df]
    writes through to [df], as it does in the pandas releases without
    copy-on-write, for which the code was written. *)
Definition impute_total_charges (df : frame) : result frame :=
  (tc <- get_col "TotalCharges" df ;;
   let df := set_item "TotalCharges" (to_numeric_coerce tc) df in
   tc <- get_col "TotalCharges" df ;;
   mc <- get_col "MonthlyCharges" df ;;
   Ok (set_item "TotalCharges" (fillna tc mc) df))%res.

(** Line 59: [1 if x in [1, 2] else 0] on the (encoded) contract. *)
Definition engaged_code (x : value) : Z :=
  if eq_int x 1 || eq_int x 2 then 1%Z else 0%Z.

Definition add_engaged (df : frame) : result frame :=
  (contract <- get_col "Contract" df ;;
   Ok (set_item "NEW_Engaged" (VInt (engaged_code contract)) df))%res.

(** Lines 60-62: [(df[[...]] == 1).sum(axis=1)]. *)
Definition count_eq_1 (cells : list value) : Z :=
  Z.of_nat (length (filter (fun v => eq_int v 1) cells)).

Definition add_total_services (df : frame) : result frame :=
  (cells <- get_cols service_columns df ;;
   Ok (set_item "NEW_TotalServices" (VInt (count_eq_1 cells)) df))%res.

(** Lines 72-74. *)
Definition ensure_column (df : frame) (col : string) : frame :=
  if mem col df then df else set_item col (VInt 0) df.

Definition ensure_columns (df : frame) : frame :=
  fold_left ensure_column feature_columns df.

(** The float64 cell of the array scikit-learn validates. *)
Definition as_float (v : value) : result float64 :=
  match v with
  | VNone => Ok NaN
  | VBool b => Ok (Fin (if b then 1 else 0))
  | VInt z => Ok (Fin (inject_Z z))
  | VFloat f => Ok f
  | VStr s =>
      match py_float s with
      | Some f => Ok f
      | None => Raise (ValueError ("could not convert string to float: " ++ s))
      end
  end.

Fixpoint as_floats (vs : list value) : result (list float64) :=
  match vs with
  | [] => Ok []
  | v :: vs' =>
      (x <- as_float v ;;
       xs <- as_floats vs' ;;
       Ok (x :: xs))%res
  end.

(** [scaler.transform(X)] for a fitted scaler: the row is cast to float64,
    must hold no infinity and as many features as the scaler was fitted on. *)
Definition transform (sc : StandardScaler) (X : list value) : result (list float64) :=
  (xs <- as_floats X ;;
   if existsb is_inf xs then Raise (ValueError "Input X contains infinity")
   else if negb (Nat.eqb (length xs) (n_features_in_ sc))
   then Raise (ValueError "X has a different number of features than StandardScaler expects")
   else if negb (Nat.eqb (length (scale_ sc)) (n_features_in_ sc))
   then Raise (ValueError "operands could not be broadcast together")
   else Ok (standardize_all xs (mean_ sc) (scale_ sc)))%res.

(** [scaler.transform(X)] on the global, which is [None] until loaded. *)
Definition scaler_transform (sc : option StandardScaler) (X : list value)
  : result (list float64) :=
  match sc with
  | Some sc => transform sc X
  | None => Raise (AttributeError "'NoneType' object has no attribute 'transform'")
  end.

(** The body of the [try] block of [preprocess_input]. *)
Definition preprocess_input_try (data : pydata) : M (list float64) :=
  (let df := DataFrame data in
   df <- for_each categorical_columns
           (fun col df =>
              encs <- gets label_encoders ;;
              lift (encode_column encs col df)) df ;;
   df <- lift (impute_total_charges df) ;;
   df <- lift (add_engaged df) ;;
   df <- lift (add_total_services df) ;;
   let df := ensure_columns df in
   X <- lift (get_cols feature_columns df) ;;
   sc <- gets scaler ;;
   lift (scaler_transform sc X))%M.

(** [preprocess_input]: the scaled row, or [None] after any exception
    (whose text is only printed). *)
Definition preprocess_input (data : pydata) : M (option (list float64)) :=
  try_except
    (X_scaled <- preprocess_input_try data ;; ret (Some X_scaled))%M
    (fun _ => ret None).

(** The same computation as a function of the two artifacts it reads:
    first the 21 cells of [X], then the scaled row. *)
Definition features (encs : dict LabelEncoder) (data : pydata)
  : result (list value) :=
  (df <- for_each_pure categorical_columns (encode_column encs) (DataFrame data) ;;
   df <- impute_total_charges df ;;
   df <- add_engaged df ;;
   df <- add_total_services df ;;
   get_cols feature_columns (ensure_columns df))%res.

Definition preprocess (encs : dict LabelEncoder) (sc : option StandardScaler)
  (data : pydata) : result (list float64) :=
  (X <- features encs data ;; scaler_transform sc X)%res.

(** ** [app.py]: the routes *)

Definition error_body (msg : string) : dict jvalue := [("error", JStr msg)].

(** [POST /predict] *)
Definition predict (req : request) : M response :=
  try_except
    (m <- gets model ;;
     match m with
     | None => ret (error_body "Model not loaded", 500%Z)
     | Some clf =>
         data <- lift req ;;
         if negb (truthy data) then ret (error_body "No data provided", 400%Z)
         else
           X <- preprocess_input data ;;
           match X with
           | None => ret (error_body "Error in data preprocessing", 400%Z)
           | Some X =>
               prediction <- lift (clf_predict clf X) ;;
               probability <- lift (clf_predict_proba clf X) ;;
               ret ([("prediction", JInt prediction);
                     ("churn_probability", JFloat (snd probability));
                     ("no_churn_probability", JFloat (fst probability));
                     ("message",
                      JStr (if Z.eqb prediction 1 then "Customer will churn"
                            else "Customer will not churn"))],
                    200%Z)
           end
     end)%M
    (fun e => ret (error_body (exn_str e), 500%Z)).

(** [GET /health] *)
Definition health_check : M response :=
  (m <- gets model ;;
   ret ([("status", JStr "healthy");
         ("model_loaded", JBool (match m with Some _ => true | None => false end))],
        200%Z))%M.

(** [GET /model_info] *)
Definition model_info : M response :=
  (m <- gets model ;;
   match m with
   | None => ret (error_body "Model not loaded", 500%Z)
   | Some clf =>
       encs <- gets label_encoders ;;
       ret ([("model_type", JStr (clf_type_name clf));
             ("features", JInt (Z.of_nat (length encs)));
             ("status", JStr "loaded")],
            200%Z)
   end)%M.

(** The three routes the service answers with JSON. *)
Inductive route : Type :=
| PostPredict (req : request)
| GetHealth
| GetModelInfo.

Definition handle (r : route) : M response :=
  match r with
  | PostPredict req => predict req
  | GetHealth => health_check
  | GetModelInfo => model_info
  end.

(** [load_model]: the three [joblib.load] calls, each the unpickled object
    or the exception it raised. *)
Record model_files : Type := {
  churn_model_pkl : result classifier;
  label_encoders_pkl : result (dict LabelEncoder);
  scaler_pkl : result StandardScaler
}.

Definition load_model (files : model_files) : M bool :=
  try_except
    (m <- lift (churn_model_pkl files) ;;
     s <- gets (fun s => s) ;;
     _ <- put {| model := Some m; label_encoders := label_encoders s; scaler := scaler s |} ;;
     encs <- lift (label_encoders_pkl files) ;;
     s <- gets (fun s => s) ;;
     _ <- put {| model := model s; label_encoders := encs; scaler := scaler s |} ;;
     sc <- lift (scaler_pkl files) ;;
     s <- gets (fun s => s) ;;
     _ <- put {| model := model s; label_encoders := label_encoders s; scaler := Some sc |} ;;
     ret true)%M
    (fun _ => ret false).

(** ** [model_training.py]: the data preparation

    The training frame has many rows, so it is kept as pandas keeps it: a
    dict from column name to the column's cells, all columns of one
    length. *)

Definition column := list value.
Definition table := dict column.

(** [df[col]] *)
Definition get_column (col : string) (df : table) : result column :=
  match lookup col df with
  | Some c => Ok c
  | None => Raise (KeyError col)
  end.

(** [df[[c1, ..., cn]]] *)
Fixpoint get_columns (cols : list string) (df : table) : result (list column) :=
  match cols with
  | [] => Ok []
  | c :: cs =>
      match get_column c df, get_columns cs df with
      | Ok v, Ok vs => Ok (v :: vs)
      | Raise e, _ => Raise e
      | _, Raise e => Raise e
      end
  end.

(** [column.fillna(other)], row by row. *)
Fixpoint fillna_column (c other : column) : column :=
  match c, other with
  | v :: c', o :: other' => fillna v o :: fillna_column c' other'
  | _, _ => c
  end.

(** [load_and_preprocess_data], from the frame [read_csv] returned. *)
Definition load_and_preprocess_data (csv : table) : result table :=
  (churn <- get_column "Churn" csv ;;
   let df := set_item "Churn"
               (map (fun x => VInt (if eq_str x "Yes" then 1 else 0)) churn) csv in
   tc <- get_column "TotalCharges" df ;;
   let df := set_item "TotalCharges" (map to_numeric_coerce tc) df in
   tc <- get_column "TotalCharges" df ;;
   mc <- get_column "MonthlyCharges" df ;;
   Ok (set_item "TotalCharges" (fillna_column tc mc) df))%res.

(** Line 37: [1 if x in ['One year','Two year'] else 0] on the raw label. *)
Definition engaged_label (x : value) : Z :=
  if eq_str x "One year" || eq_str x "Two year" then 1%Z else 0%Z.

(** [(columns == 'Yes').sum(axis=1)]: per row, the number of the given
    columns whose cell is ['Yes']. *)
Fixpoint add_indicator (acc : list Z) (c : column) : list Z :=
  match acc, c with
  | a :: acc', v :: c' =>
      (a + (if eq_str v "Yes" then 1 else 0))%Z :: add_indicator acc' c'
  | _, _ => acc
  end.

Definition count_yes (n_rows : nat) (cols : list column) : list Z :=
  fold_left add_indicator cols (repeat 0%Z n_rows).

(** [feature_engineering] *)
Definition feature_engineering (df : table) : result table :=
  (contract <- get_column "Contract" df ;;
   let df := set_item "NEW_Engaged"
               (map (fun x => VInt (engaged_label x)) contract) df in
   cols <- get_columns service_columns df ;;
   Ok (set_item "NEW_TotalServices"
         (map VInt (count_yes (length contract) cols)) df))%res.

(** [LabelEncoder().fit(column)] on a column of strings.  The categorical
    columns of the CSV are read as strings; a column holding anything else
    is outside this model and reported as the [TypeError] scikit-learn
    raises for mixed labels. *)
Fixpoint labels_of (c : column) : result (list string) :=
  match c with
  | [] => Ok []
  | VStr s :: c' => (l <- labels_of c' ;; Ok (s :: l))%res
  | _ :: _ => Raise (TypeError "Encoders require their input argument must be uniformly strings or numbers")
  end.

Definition fit (c : column) : result LabelEncoder :=
  (l <- labels_of c ;; Ok {| classes_ := sorted_unique l |})%res.

Fixpoint transform_column (le : LabelEncoder) (c : column) : result column :=
  match c with
  | [] => Ok []
  | v :: c' =>
      (x <- le_transform le v ;;
       xs <- transform_column le c' ;;
       Ok (x :: xs))%res
  end.

(** Lines 57-60: the body of the loop of [encode_categorical_features]. *)
Definition fit_encode_column (col : string) (acc : table * dict LabelEncoder)
  : result (table * dict LabelEncoder) :=
  let (df, label_encoders) := acc in
  match lookup col df with
  | Some c =>
      (le <- fit c ;;
       codes <- transform_column le c ;;
       Ok (set_item col codes df, set_item col le label_encoders))%res
  | None => Ok acc
  end.

(** [encode_categorical_features] *)
Definition encode_categorical_features (df : table)
  : result (table * dict LabelEncoder) :=
  for_each_pure categorical_columns fit_encode_column (df, []).

(** [main], up to the feature matrix [X], the target [y] and the encoder
    table handed to [train_model] and [save_model_and_preprocessors]. *)
Definition training_data (csv : table)
  : result (list column * column * dict LabelEncoder) :=
  (df <- load_and_preprocess_data csv ;;
   df <- feature_engineering df ;;
   p <- encode_categorical_features df ;;
   X <- get_columns feature_columns (fst p) ;;
   y <- get_column "Churn" (fst p) ;;
   Ok (X, y, snd p))%res.

(** The cell of a column at a row, when both exist. *)
Definition cell (col : string) (row : nat) (df : table) : option value :=
  match lookup col df with
  | Some c => nth_error c row
  | None => None
  end.

(** ** Predicates used in the statements *)

(** A handler that leaves the three globals as it found them. *)
Definition readonly {A} (m : M A) : Prop := forall s, snd (m s) = s.

(** Two frames with the same columns holding the same cells, whatever the
    order of the columns. *)
Definition same_cells {A} (d1 d2 : dict A) : Prop :=
  forall k, lookup k d1 = lookup k d2.

(** [None] for an exception, as [preprocess_input] answers. *)
Definition to_option {A} (r : result A) : option A :=
  match r with
  | Ok a => Some a
  | Raise _ => None
  end.

(** [field] occurs in [msg]. *)
Definition mentions (field msg : string) : bool :=
  match String.index 0 field msg with
  | Some _ => true
  | None => false
  end.

(** Two outcomes of a step on frames that cannot be told apart by reading
    columns: the same exception, or frames with the same cells. *)
Definition same_result (r1 r2 : result frame) : Prop :=
  match r1, r2 with
  | Ok df1, Ok df2 => same_cells df1 df2
  | Raise e1, Raise e2 => e1 = e2
  | _, _ => False
  end.

(** The cell [X] gets for a column after lines 72-76. *)
Definition cell_or_zero (df : frame) (col : string) : value :=
  match lookup col df with
  | Some v => v
  | None => VInt 0
  end.

(** A record seen as a training frame of one row. *)
Definition table_of_row (r : frame) : table :=
  map (fun kv => (fst kv, [snd kv])) r.

(** The columns lines 55-62 read with [df[...]] before the loop of lines
    72-74 gets to create the missing ones. *)
Definition required_columns : list string :=
  ["TotalCharges"; "MonthlyCharges"; "Contract"] ++ service_columns.


(** The nine raw features that lines 55-62 do not read. *)
Definition optional_columns : list string :=
  ["SeniorCitizen"; "tenure"; "gender"; "Partner"; "Dependents";
   "MultipleLines"; "InternetService"; "PaperlessBilling"; "PaymentMethod"].

(** The 19 features taken from the record; the remaining two are computed. *)
Definition raw_columns : list string :=
  ["SeniorCitizen"; "tenure"; "MonthlyCharges"; "TotalCharges";
   "gender"; "Partner"; "Dependents"; "PhoneService"; "MultipleLines";
   "InternetService"; "OnlineSecurity"; "OnlineBackup"; "DeviceProtection";
   "TechSupport"; "StreamingTV"; "StreamingMovies"; "Contract";
   "PaperlessBilling"; "PaymentMethod"].

(** The three raw features that are numbers in the record. *)
Definition numeric_columns : list string :=
  ["SeniorCitizen"; "tenure"; "MonthlyCharges"].



(** The cell of a column at a row is the string ['Yes']. *)
Definition yes_at (df : table) (row : nat) (col : string) : bool :=
  match cell col row df with
  | Some v => eq_str v "Yes"
  | None => false
  end.

(** The vocabularies of the service fields in the Telco data. *)
Definition yes_no : LabelEncoder := {| classes_ := ["No"; "Yes"] |}.
Definition internet : LabelEncoder :=
  {| classes_ := ["No"; "No internet service"; "Yes"] |}.

(** The label that the service field's Telco encoder maps to code 1. *)
Definition label_of_code_1 (col : string) : string :=
  if String.eqb col "PhoneService" then "Yes" else "No internet service".

(** Every column of a frame has [n] rows. *)
Definition n_rows (n : nat) (df : table) : Prop :=
  forall col c, lookup col df = Some c -> length c = n.

(** ** Sample data

    Four rows in the shape of the Telco CSV, covering every label of every
    categorical column. *)

Definition strs (l : list string) : column := map VStr l.
Definition ints (l : list Z) : column := map VInt l.
Definition floats (l : list Q) : column := map (fun q => VFloat (Fin q)) l.

Definition telco_csv : table :=
  [("gender", strs ["Female"; "Male"; "Male"; "Female"]);
   ("SeniorCitizen", ints [0; 0; 0; 1]%Z);
   ("Partner", strs ["Yes"; "No"; "No"; "Yes"]);
   ("Dependents", strs ["No"; "No"; "Yes"; "Yes"]);
   ("tenure", ints [1; 34; 45; 10]%Z);
   ("PhoneService", strs ["No"; "Yes"; "Yes"; "Yes"]);
   ("MultipleLines", strs ["No phone service"; "No"; "Yes"; "No"]);
   ("InternetService", strs ["DSL"; "DSL"; "Fiber optic"; "No"]);
   ("OnlineSecurity", strs ["No"; "Yes"; "Yes"; "No internet service"]);
   ("OnlineBackup", strs ["Yes"; "No"; "Yes"; "No internet service"]);
   ("DeviceProtection", strs ["No"; "Yes"; "Yes"; "No internet service"]);
   ("TechSupport", strs ["No"; "No"; "Yes"; "No internet service"]);
   ("StreamingTV", strs ["No"; "No"; "Yes"; "No internet service"]);
   ("StreamingMovies", strs ["No"; "No"; "Yes"; "No internet service"]);
   ("Contract", strs ["Month-to-month"; "One year"; "Two year"; "Month-to-month"]);
   ("PaperlessBilling", strs ["Yes"; "No"; "Yes"; "No"]);
   ("PaymentMethod", strs ["Electronic check"; "Mailed check";
                           "Bank transfer (automatic)"; "Credit card (automatic)"]);
   ("MonthlyCharges", floats [2985 # 100; 5695 # 100; 9965 # 100; 2025 # 100]%Q);
   ("TotalCharges", floats [2985 # 100; 18895 # 10; 4500 # 1; 2025 # 10]%Q);
   ("Churn", strs ["No"; "No"; "Yes"; "No"])].

(** The encoder table that training on [telco_csv] saves. *)
Definition telco_encoders : dict LabelEncoder :=
  let yes_no := {| classes_ := ["No"; "Yes"] |} in
  let internet := {| classes_ := ["No"; "No internet service"; "Yes"] |} in
  [("gender", {| classes_ := ["Female"; "Male"] |});
   ("Partner", yes_no);
   ("Dependents", yes_no);
   ("PhoneService", yes_no);
   ("MultipleLines", {| classes_ := ["No"; "No phone service"; "Yes"] |});
   ("InternetService", {| classes_ := ["DSL"; "Fiber optic"; "No"] |});
   ("OnlineSecurity", internet);
   ("OnlineBackup", internet);
   ("DeviceProtection", internet);
   ("TechSupport", internet);
   ("StreamingTV", internet);
   ("StreamingMovies", internet);
   ("Contract", {| classes_ := ["Month-to-month"; "One year"; "Two year"] |});
   ("PaperlessBilling", yes_no);
   ("PaymentMethod", {| classes_ := ["Bank transfer (automatic)";
                                     "Credit card (automatic)";
                                     "Electronic check"; "Mailed check"] |})].

(** The same table after training on customers who all hold a one-year or
    a two-year contract. *)
Definition annual_encoders : dict LabelEncoder :=
  set_item "Contract" {| classes_ := ["One year"; "Two year"] |} telco_encoders.

(** A scaler fitted on 21 features. *)
Definition unit_scaler : StandardScaler :=
  {| mean_ := repeat 0%Q 21; scale_ := repeat 1%Q 21 |}.

Definition constant_classifier : classifier :=
  {| clf_type_name := "RandomForestClassifier";
     clf_predict := fun _ => Ok 1%Z;
     clf_predict_proba := fun _ => Ok (Fin (3 # 10), Fin (7 # 10)) |}.

Definition telco_state : app_state :=
  {| model := Some constant_classifier;
     label_encoders := telco_encoders;
     scaler := Some unit_scaler |}.

(** A complete record with three of the seven services subscribed. *)
Definition customer : frame :=
  [("gender", VStr "Male");
   ("SeniorCitizen", VInt 0);
   ("Partner", VStr "No");
   ("Dependents", VStr "No");
   ("tenure", VInt 12);
   ("PhoneService", VStr "Yes");
   ("MultipleLines", VStr "No");
   ("InternetService", VStr "DSL");
   ("OnlineSecurity", VStr "Yes");
   ("OnlineBackup", VStr "Yes");
   ("DeviceProtection", VStr "No");
   ("TechSupport", VStr "No");
   ("StreamingTV", VStr "No");
   ("StreamingMovies", VStr "No");
   ("Contract", VStr "One year");
   ("PaperlessBilling", VStr "Yes");
   ("PaymentMethod", VStr "Mailed check");
   ("MonthlyCharges", VFloat (Fin 70));
   ("TotalCharges", VFloat (Fin 600))].

(** The same customer with a gender the encoder never saw. *)
Definition unknown_gender : frame :=
  set_item "gender" (VStr "Other") customer.


(** The record posted by [test_predict_with_mock_model]: no
    [OnlineSecurity], ..., [StreamingMovies], [PaperlessBilling] or
    [PaymentMethod]. *)
Definition test_data : frame :=
  [("gender", VStr "Male");
   ("SeniorCitizen", VInt 0);
   ("Partner", VStr "No");
   ("Dependents", VStr "No");
   ("tenure", VInt 12);
   ("PhoneService", VStr "Yes");
   ("MultipleLines", VStr "No");
   ("InternetService", VStr "DSL");
   ("Contract", VStr "Month-to-month");
   ("MonthlyCharges", VFloat (Fin 50));
   ("TotalCharges", VFloat (Fin 600))].

(** The sample customer with the fields in reverse order. *)
Definition customer_reversed : frame := rev customer.


(** The sample customer without [tenure]. *)
Definition customer_without_tenure : frame :=
  filter (fun kv => negb (String.eqb (fst kv) "tenure")) customer.

(** A classifier that rejects every row. *)
Definition failing_classifier : classifier :=
  {| clf_type_name := "RandomForestClassifier";
     clf_predict := fun _ => Raise (ValueError "Input X contains NaN.");
     clf_predict_proba := fun _ => Raise (ValueError "Input X contains NaN.") |}.

(** The three files of a complete training run, and the same directory
    with the scaler missing. *)
Definition telco_files : model_files :=
  {| churn_model_pkl := Ok constant_classifier;
     label_encoders_pkl := Ok telco_encoders;
     scaler_pkl := Ok unit_scaler |}.

Definition files_without_scaler : model_files :=
  {| churn_model_pkl := Ok constant_classifier;
     label_encoders_pkl := Ok telco_encoders;
     scaler_pkl := Raise (ValueError "[Errno 2] No such file or directory: 'models/scaler.pkl'") |}.

(** The service with a classifier that rejects every row, and with a
    model and a scaler but no encoder. *)
Definition failing_state : app_state :=
  {| model := Some failing_classifier;
     label_encoders := telco_encoders;
     scaler := Some unit_scaler |}.

Definition state_without_encoders : app_state :=
  {| model := Some constant_classifier;
     label_encoders := [];
     scaler := Some unit_scaler |}.

(** Row [i] of a training frame, as the record a client would post. *)
Definition row_of (i : nat) (df : table) : frame :=
  map (fun kv => (fst kv, nth i (snd kv) VNone)) df.

(** The sample frame after [feature_engineering], and after
    [encode_categorical_features]. *)
Definition telco_engineered : table :=
  match feature_engineering telco_csv with
  | Ok df => df
  | Raise _ => []
  end.

Definition telco_encoded : table :=
  match encode_categorical_features telco_engineered with
  | Ok p => fst p
  | Raise _ => []
  end.

(** * Properties *)

Set Default Proof Using "Type".

(** Propositional reasoning that does not pull the two parsers into the
    proof. *)
Ltac propositional := try clear py_float; try clear pd_parse; tauto.

(** ** Dicts *)

Lemma lookup_set_item {A} (k k' : string) (v : A) (d : dict A) :
  lookup k (set_item k' v d) = if String.eqb k k' then Some v else lookup k d.
Proof.
  induction d as [|[k0 v0] d IH]; simpl.
  - reflexivity.
  - destruct (String.eqb k' k0) eqn:E'; simpl.
    + apply String.eqb_eq in E'. subst k0.
      destruct (String.eqb k k'); reflexivity.
    + rewrite IH. destruct (String.eqb k k0) eqn:E0; [|reflexivity].
      apply String.eqb_eq in E0. subst k0. rewrite String.eqb_sym, E'. reflexivity.
Qed.

Lemma lookup_set_item_same {A} (k : string) (v : A) (d : dict A) :
  lookup k (set_item k v d) = Some v.
Proof. rewrite lookup_set_item, String.eqb_refl. reflexivity. Qed.

Lemma lookup_set_item_other {A} (k k' : string) (v : A) (d : dict A) :
  k <> k' -> lookup k (set_item k' v d) = lookup k d.
Proof.
  intros N. rewrite lookup_set_item.
  destruct (String.eqb k k') eqn:E; [|reflexivity].
  apply String.eqb_eq in E. contradiction.
Qed.

Lemma lookup_In {A} (k : string) (v : A) (d : dict A) :
  lookup k d = Some v -> In (k, v) d.
Proof.
  induction d as [|[k0 v0] d IH]; simpl; [discriminate|].
  destruct (String.eqb k k0) eqn:E.
  - apply String.eqb_eq in E. intros [= ->]. left. congruence.
  - intros H. right. auto.
Qed.

Lemma In_lookup {A} (k : string) (v : A) (d : dict A) :
  NoDup (keys d) -> In (k, v) d -> lookup k d = Some v.
Proof.
  induction d as [|[k0 v0] d IH]; simpl; [contradiction|].
  intros ND [E|I].
  - injection E as -> ->. rewrite String.eqb_refl. reflexivity.
  - inversion ND as [|? ? NI ND']; subst.
    destruct (String.eqb k k0) eqn:E.
    + apply String.eqb_eq in E. subst k0. exfalso. apply NI.
      change k with (fst (k, v)). apply in_map. exact I.
    + auto.
Qed.

(** A dict read key by key does not depend on the order of its items. *)
Lemma Permutation_same_cells {A} (d1 d2 : dict A) :
  NoDup (keys d1) -> Permutation d1 d2 -> same_cells d1 d2.
Proof.
  intros ND P k.
  assert (ND2 : NoDup (keys d2)).
  { unfold keys. eapply Permutation_NoDup; [apply Permutation_map; exact P|exact ND]. }
  destruct (lookup k d1) as [v|] eqn:E1.
  - symmetry. apply In_lookup; [exact ND2|].
    eapply Permutation_in; [exact P|]. apply lookup_In. exact E1.
  - destruct (lookup k d2) as [v|] eqn:E2; [|reflexivity].
    apply lookup_In in E2. apply Permutation_sym in P.
    eapply Permutation_in in E2; [|exact P].
    apply In_lookup in E2; [congruence|exact ND].
Qed.

(** ** The handler monad *)

Lemma readonly_ret {A} (a : A) : readonly (ret a).
Proof. intros s. reflexivity. Qed.

Lemma readonly_raise {A} (e : exn) : readonly (@raise A e).
Proof. intros s. reflexivity. Qed.

Lemma readonly_lift {A} (r : result A) : readonly (lift r).
Proof. intros s. reflexivity. Qed.

Lemma readonly_gets {A} (proj : app_state -> A) : readonly (gets proj).
Proof. intros s. reflexivity. Qed.

Lemma readonly_bind {A B} (m : M A) (k : A -> M B) :
  readonly m -> (forall a, readonly (k a)) -> readonly (bind m k).
Proof.
  intros Hm Hk s. unfold bind. specialize (Hm s).
  destruct (m s) as [[a|e] s']; simpl in *; subst s'.
  - apply Hk.
  - reflexivity.
Qed.

Lemma readonly_try_except {A} (m : M A) (h : exn -> M A) :
  readonly m -> (forall e, readonly (h e)) -> readonly (try_except m h).
Proof.
  intros Hm Hh s. unfold try_except. specialize (Hm s).
  destruct (m s) as [[a|e] s']; simpl in *; subst s'.
  - reflexivity.
  - apply Hh.
Qed.

Lemma readonly_for_each {A S} (xs : list A) (f : A -> S -> M S) :
  (forall x acc, readonly (f x acc)) -> forall acc, readonly (for_each xs f acc).
Proof.
  intros Hf. induction xs as [|x xs IH]; intros acc; simpl.
  - apply readonly_ret.
  - apply readonly_bind; auto.
Qed.

(** The loop over the categorical columns reads [label_encoders] at every
    turn and finds the same table each time. *)
Lemma for_each_encode (cols : list string) (df : frame) (s : app_state) :
  for_each cols
    (fun col df => bind (gets label_encoders)
                     (fun encs => lift (encode_column encs col df))) df s
  = (for_each_pure cols (encode_column (label_encoders s)) df, s).
Proof.
  revert df. induction cols as [|c cols IH]; intros df; simpl.
  - reflexivity.
  - unfold bind at 1. unfold bind at 1. unfold gets, lift.
    destruct (encode_column (label_encoders s) c df) as [df'|e]; simpl.
    + apply IH.
    + reflexivity.
Qed.

(** [preprocess_input] is a function of the record and of the two
    artifacts it reads. *)
Lemma preprocess_input_try_run (data : pydata) (s : app_state) :
  preprocess_input_try data s
  = (preprocess (label_encoders s) (scaler s) data, s).
Proof.
  unfold preprocess_input_try, preprocess, features.
  unfold bind at 1. rewrite for_each_encode.
  destruct (for_each_pure _ _ _) as [df1|e]; cbv beta iota delta [rbind]; [|reflexivity].
  unfold bind, lift, gets.
  destruct (impute_total_charges df1) as [df2|e]; cbv beta iota; [|reflexivity].
  destruct (add_engaged df2) as [df3|e]; cbv beta iota; [|reflexivity].
  destruct (add_total_services df3) as [df4|e]; cbv beta iota; [|reflexivity].
  destruct (get_cols feature_columns (ensure_columns df4)) as [X|e]; reflexivity.
Qed.

Lemma preprocess_input_run (data : pydata) (s : app_state) :
  preprocess_input data s
  = (Ok (to_option (preprocess (label_encoders s) (scaler s) data)), s).
Proof.
  unfold preprocess_input, try_except, bind.
  rewrite preprocess_input_try_run.
  destruct (preprocess _ _ _); reflexivity.
Qed.

Lemma readonly_preprocess_input (data : pydata) : readonly (preprocess_input data).
Proof. intros s. rewrite preprocess_input_run. reflexivity. Qed.

Lemma readonly_predict (req : request) : readonly (predict req).
Proof.
  unfold predict.
  apply readonly_try_except; [|intros e; apply readonly_ret].
  apply readonly_bind; [apply readonly_gets|].
  intros [clf|]; [|apply readonly_ret].
  apply readonly_bind; [apply readonly_lift|]. intros data.
  destruct (negb (truthy data)); [apply readonly_ret|].
  apply readonly_bind; [apply readonly_preprocess_input|].
  intros [X|]; [|apply readonly_ret].
  apply readonly_bind; [apply readonly_lift|]. intros prediction.
  apply readonly_bind; [apply readonly_lift|]. intros probability.
  apply readonly_ret.
Qed.

Lemma readonly_health_check : readonly health_check.
Proof.
  unfold health_check.
  apply readonly_bind; [apply readonly_gets|]. intros m. apply readonly_ret.
Qed.

Lemma readonly_model_info : readonly model_info.
Proof.
  unfold model_info. apply readonly_bind; [apply readonly_gets|].
  intros [clf|]; [|apply readonly_ret].
  apply readonly_bind; [apply readonly_gets|]. intros encs. apply readonly_ret.
Qed.

(** ** The routes *)

(** C9: whatever the request, [/predict], [/health] and [/model_info]
    leave [model], [label_encoders] and [scaler] exactly as they found
    them. *)
Theorem handlers_preserve_state (r : route) (s : app_state) :
  model (snd (handle r s)) = model s /\
  label_encoders (snd (handle r s)) = label_encoders s /\
  scaler (snd (handle r s)) = scaler s.
Proof.
  assert (H : snd (handle r s) = s).
  { destruct r as [req| |]; simpl.
    - apply readonly_predict.
    - apply readonly_health_check.
    - apply readonly_model_info. }
  rewrite H. repeat split.
Qed.


(** C7: [/health] answers 200 with status "healthy" in every state, and
    [model_loaded] is true exactly when the model global is set. *)
Theorem health_check_always_ok (s : app_state) :
  exists loaded : bool,
    fst (health_check s)
    = Ok ([("status", JStr "healthy"); ("model_loaded", JBool loaded)], 200%Z)
    /\ (loaded = true <-> model s <> None).
Proof.
  unfold health_check, bind, gets, ret. cbn [fst].
  destruct (model s) as [clf|].
  - exists true. split; [reflexivity|]. split; [discriminate|reflexivity].
  - exists false. split; [reflexivity|]. split; [discriminate|congruence].
Qed.



Lemma predict_preprocessing_failed (s : app_state) (data : pydata) :
  model s <> None -> truthy data = true ->
  fst (preprocess_input data s) = Ok None ->
  fst (predict (Ok data) s) = Ok (error_body "Error in data preprocessing", 400%Z).
Proof.
  intros Hm Ht Hp. unfold predict, try_except.
  unfold bind at 1. unfold gets.
  destruct (model s) as [clf|]; [|congruence].
  unfold bind at 1. unfold lift. rewrite Ht. cbn [negb].
  unfold bind at 1.
  rewrite preprocess_input_run in *. cbn [fst] in Hp.
  injection Hp as Hp. rewrite Hp. reflexivity.
Qed.


(** ** Startup *)

(** When the three files load, [load_model] returns [True] and the three
    globals hold what was loaded. *)
Lemma load_model_ok (files : model_files) (s : app_state)
  (m : classifier) (encs : dict LabelEncoder) (sc : StandardScaler) :
  churn_model_pkl files = Ok m ->
  label_encoders_pkl files = Ok encs ->
  scaler_pkl files = Ok sc ->
  load_model files s
  = (Ok true, {| model := Some m; label_encoders := encs; scaler := Some sc |}).
Proof.
  intros Hm He Hs. unfold load_model, try_except, bind, lift, gets, put, ret.
  rewrite Hm, He, Hs. reflexivity.
Qed.

(** When the model file does not load, nothing is assigned. *)
Lemma load_model_no_model (files : model_files) (s : app_state) (e : exn) :
  churn_model_pkl files = Raise e ->
  load_model files s = (Ok false, s).
Proof.
  intros Hm. unfold load_model, try_except, bind, lift, gets, put, ret.
  rewrite Hm. reflexivity.
Qed.

(** The model is assigned before the other two files are read: a failure
    there leaves a state in which [/health] reports the model as loaded. *)
Lemma load_model_partial (files : model_files) (s : app_state)
  (m : classifier) (e : exn) :
  churn_model_pkl files = Ok m ->
  label_encoders_pkl files = Raise e ->
  load_model files s
  = (Ok false, {| model := Some m; label_encoders := label_encoders s;
                  scaler := scaler s |}).
Proof.
  intros Hm He. unfold load_model, try_except, bind, lift, gets, put, ret.
  rewrite Hm, He. reflexivity.
Qed.

(** ** The encoding loop *)

Lemma encode_column_other (encs : dict LabelEncoder) (c k : string) (df df' : frame) :
  encode_column encs c df = Ok df' -> k <> c -> lookup k df' = lookup k df.
Proof.
  unfold encode_column. intros H N.
  destruct (lookup c df) as [v|]; [|injection H as <-; reflexivity].
  destruct (lookup c encs) as [le|]; [|injection H as <-; reflexivity].
  destruct (le_transform le v) as [v'|e]; [|discriminate].
  injection H as <-. apply lookup_set_item_other. exact N.
Qed.

Lemma encode_column_skip (encs : dict LabelEncoder) (c : string) (df : frame) :
  lookup c df = None \/ lookup c encs = None -> encode_column encs c df = Ok df.
Proof.
  unfold encode_column. intros [H|H]; rewrite H; [reflexivity|].
  destruct (lookup c df); reflexivity.
Qed.

Lemma encode_column_absent (encs : dict LabelEncoder) (c k : string) (df df' : frame) :
  encode_column encs c df = Ok df' -> lookup k df = None -> lookup k df' = None.
Proof.
  intros H Hk. destruct (String.eqb k c) eqn:E.
  - apply String.eqb_eq in E. subst k.
    rewrite encode_column_skip in H by (left; exact Hk).
    injection H as <-. exact Hk.
  - rewrite (encode_column_other _ _ _ _ _ H); [exact Hk|].
    intros ->. rewrite String.eqb_refl in E. discriminate.
Qed.

(** A field the loop cannot touch: not one of its columns, or without an
    encoder, or not in the record. *)
Lemma encode_loop_unchanged (encs : dict LabelEncoder) (k : string) :
  forall (cols : list string) (df df' : frame),
    for_each_pure cols (encode_column encs) df = Ok df' ->
    ~ In k cols \/ lookup k encs = None \/ lookup k df = None ->
    lookup k df' = lookup k df.
Proof.
  induction cols as [|c cols IH]; intros df df' H Hk; cbn [for_each_pure] in H.
  - injection H as <-. reflexivity.
  - unfold rbind in H.
    destruct (encode_column encs c df) as [df1|e] eqn:E; [|discriminate].
    destruct (String.eqb k c) eqn:Ekc.
    + apply String.eqb_eq in Ekc. subst c.
      destruct Hk as [Hk|Hk].
      * exfalso. apply Hk. left. reflexivity.
      * rewrite encode_column_skip in E by propositional. injection E as <-.
        apply IH; [exact H|propositional].
    + assert (N : k <> c) by (intros ->; rewrite String.eqb_refl in Ekc; discriminate).
      rewrite (IH df1 df' H).
      * eapply encode_column_other; eassumption.
      * destruct Hk as [Hk|[Hk|Hk]]; [left; intros I; apply Hk; right; exact I|propositional|].
        right. right. rewrite (encode_column_other _ _ _ _ _ E N). exact Hk.
Qed.

(** The loop fails as soon as one of its columns holds a value its encoder
    does not know. *)
Lemma encode_loop_raises (encs : dict LabelEncoder) (f : string)
  (le : LabelEncoder) (v : value) :
  lookup f encs = Some le ->
  is_ok (le_transform le v) = false ->
  forall (cols : list string) (df : frame),
    In f cols -> lookup f df = Some v ->
    is_ok (for_each_pure cols (encode_column encs) df) = false.
Proof.
  intros Hle Hbad. induction cols as [|c cols IH]; intros df Hin Hv.
  - contradiction.
  - cbn [for_each_pure]. unfold rbind.
    destruct (encode_column encs c df) as [df1|e] eqn:E; [|reflexivity].
    destruct (String.eqb f c) eqn:Efc.
    + apply String.eqb_eq in Efc. subst c. exfalso.
      unfold encode_column in E. rewrite Hv, Hle in E.
      destruct (le_transform le v); discriminate.
    + assert (N : f <> c) by (intros ->; rewrite String.eqb_refl in Efc; discriminate).
      apply IH.
      * destruct Hin as [Hin|Hin]; [congruence|exact Hin].
      * rewrite (encode_column_other _ _ _ _ _ E N). exact Hv.
Qed.

Lemma index_of_None (s : string) (l : list string) :
  ~ In s l -> index_of s l = None.
Proof.
  induction l as [|x l IH]; intros N; cbn [index_of]; [reflexivity|].
  destruct (String.eqb s x) eqn:E.
  - apply String.eqb_eq in E. subst x. exfalso. apply N. left. reflexivity.
  - rewrite IH; [reflexivity|]. intros I. apply N. right. exact I.
Qed.

(** A value that is not one of the encoder's labels is rejected. *)
Lemma le_transform_unseen (le : LabelEncoder) (v : value) :
  (forall l, v = VStr l -> ~ In l (classes_ le)) ->
  is_ok (le_transform le v) = false.
Proof.
  intros H. destruct v as [| | | |l]; try reflexivity.
  cbn [le_transform]. rewrite index_of_None; [reflexivity|]. apply H. reflexivity.
Qed.

(** ** The steps after encoding *)

Lemma get_col_Ok (col : string) (df : frame) (v : value) :
  get_col col df = Ok v <-> lookup col df = Some v.
Proof.
  unfold get_col. destruct (lookup col df); split; congruence.
Qed.

Lemma impute_total_charges_inv (df df' : frame) :
  impute_total_charges df = Ok df' ->
  exists tc mc,
    lookup "TotalCharges" df = Some tc /\
    lookup "MonthlyCharges" df = Some mc /\
    forall k, lookup k df'
              = if String.eqb k "TotalCharges"
                then Some (fillna (to_numeric_coerce tc) mc)
                else lookup k df.
Proof.
  unfold impute_total_charges, rbind, get_col.
  destruct (lookup "TotalCharges" df) as [tc|] eqn:Etc; [|discriminate].
  rewrite lookup_set_item_same.
  rewrite lookup_set_item_other by discriminate.
  destruct (lookup "MonthlyCharges" df) as [mc|] eqn:Emc; [|discriminate].
  intros [= <-]. exists tc, mc. repeat split.
  intros k. rewrite !lookup_set_item.
  destruct (String.eqb k "TotalCharges"); reflexivity.
Qed.

Lemma add_engaged_inv (df df' : frame) :
  add_engaged df = Ok df' ->
  exists contract,
    lookup "Contract" df = Some contract /\
    forall k, lookup k df'
              = if String.eqb k "NEW_Engaged"
                then Some (VInt (engaged_code contract))
                else lookup k df.
Proof.
  unfold add_engaged, rbind, get_col.
  destruct (lookup "Contract" df) as [c|] eqn:Ec; [|discriminate].
  intros [= <-]. exists c. split; [reflexivity|].
  intros k. apply lookup_set_item.
Qed.

Lemma add_total_services_inv (df df' : frame) :
  add_total_services df = Ok df' ->
  exists cells,
    get_cols service_columns df = Ok cells /\
    forall k, lookup k df'
              = if String.eqb k "NEW_TotalServices"
                then Some (VInt (count_eq_1 cells))
                else lookup k df.
Proof.
  unfold add_total_services, rbind.
  destruct (get_cols service_columns df) as [cells|]; [|discriminate].
  intros [= <-]. exists cells. split; [reflexivity|].
  intros k. apply lookup_set_item.
Qed.

Lemma lookup_ensure_column (df : frame) (c k : string) :
  lookup k (ensure_column df c)
  = match lookup k df with
    | Some v => Some v
    | None => if String.eqb k c then Some (VInt 0) else None
    end.
Proof.
  unfold ensure_column, mem.
  destruct (lookup c df) as [vc|] eqn:Ec.
  - destruct (lookup k df) as [v|] eqn:Ek; [reflexivity|].
    destruct (String.eqb k c) eqn:E; [|reflexivity].
    apply String.eqb_eq in E. congruence.
  - rewrite lookup_set_item.
    destruct (String.eqb k c) eqn:E.
    + apply String.eqb_eq in E. subst k. rewrite Ec. reflexivity.
    + destruct (lookup k df); reflexivity.
Qed.

Lemma lookup_fold_ensure (cols : list string) (k : string) :
  forall df : frame,
    lookup k (fold_left ensure_column cols df)
    = match lookup k df with
      | Some v => Some v
      | None => if existsb (String.eqb k) cols then Some (VInt 0) else None
      end.
Proof.
  induction cols as [|c cols IH]; intros df; cbn [fold_left existsb].
  - destruct (lookup k df); reflexivity.
  - rewrite IH, lookup_ensure_column.
    destruct (lookup k df) as [v|]; [reflexivity|].
    destruct (String.eqb k c); cbn [orb]; reflexivity.
Qed.

(** Lines 72-76: once every feature column exists, selecting them cannot
    fail; a column that was absent reads 0. *)
Lemma get_cols_ensure_columns (df : frame) :
  forall cols : list string,
    incl cols feature_columns ->
    get_cols cols (ensure_columns df) = Ok (map (cell_or_zero df) cols).
Proof.
  induction cols as [|c cols IH]; intros Hincl; cbn [get_cols map].
  - reflexivity.
  - rewrite IH by (intros x Hx; apply Hincl; right; exact Hx).
    unfold get_col, ensure_columns. rewrite lookup_fold_ensure.
    change (cell_or_zero df c)
      with (match lookup c df with Some v => v | None => VInt 0 end).
    destruct (lookup c df) as [v|]; [reflexivity|].
    assert (E : existsb (String.eqb c) feature_columns = true).
    { apply existsb_exists. exists c. split.
      - apply Hincl. left. reflexivity.
      - apply String.eqb_refl. }
    rewrite E. reflexivity.
Qed.

(** What a successful run of lines 41-76 went through. *)
Lemma features_inv (encs : dict LabelEncoder) (data : pydata) (X : list value) :
  features encs data = Ok X ->
  exists df1 df2 df3 df4,
    for_each_pure categorical_columns (encode_column encs) (DataFrame data) = Ok df1 /\
    impute_total_charges df1 = Ok df2 /\
    add_engaged df2 = Ok df3 /\
    add_total_services df3 = Ok df4 /\
    X = map (cell_or_zero df4) feature_columns.
Proof.
  unfold features, rbind.
  destruct (for_each_pure _ _ _) as [df1|] eqn:E1; [|discriminate].
  destruct (impute_total_charges df1) as [df2|] eqn:E2; [|discriminate].
  destruct (add_engaged df2) as [df3|] eqn:E3; [|discriminate].
  destruct (add_total_services df3) as [df4|] eqn:E4; [|discriminate].
  rewrite get_cols_ensure_columns by apply incl_refl.
  intros [= <-]. exists df1, df2, df3, df4. repeat split; assumption.
Qed.

(** The row handed to the scaler always has the 21 features. *)
Lemma features_length (encs : dict LabelEncoder) (data : pydata) (X : list value) :
  features encs data = Ok X -> length X = 21%nat.
Proof.
  intros H. apply features_inv in H.
  destruct H as (df1 & df2 & df3 & df4 & _ & _ & _ & _ & ->).
  rewrite length_map. reflexivity.
Qed.

(** ** Unknown categories and missing encoders *)

Lemma categorical_not_derived (col : string) :
  In col categorical_columns ->
  col <> "TotalCharges" /\ col <> "MonthlyCharges" /\
  col <> "NEW_Engaged" /\ col <> "NEW_TotalServices".
Proof.
  unfold categorical_columns. cbn [In].
  intros H. repeat (destruct H as [<-|H]; [repeat split; discriminate|]).
  contradiction.
Qed.

Lemma eqb_neq_false (a b : string) : a <> b -> String.eqb a b = false.
Proof. intros N. apply String.eqb_neq. exact N. Qed.

Lemma preprocess_input_fails (s : app_state) (data : pydata) :
  is_ok (features (label_encoders s) data) = false ->
  fst (preprocess_input data s) = Ok None.
Proof.
  intros H. rewrite preprocess_input_run. cbn [fst]. unfold preprocess, rbind.
  destruct (features (label_encoders s) data); [discriminate|reflexivity].
Qed.

(** C1, as the code has it: a record whose value for a categorical field
    is not in the vocabulary of that field's encoder makes
    [preprocess_input] return [None], and [/predict] (model loaded) answers
    400 with the fixed message "Error in data preprocessing". *)
Theorem unknown_category_is_rejected
  (s : app_state) (r : frame) (f : string) (le : LabelEncoder) (v : value) :
  model s <> None ->
  In f categorical_columns ->
  lookup f (label_encoders s) = Some le ->
  lookup f r = Some v ->
  (forall l, v = VStr l -> ~ In l (classes_ le)) ->
  fst (preprocess_input (DDict r) s) = Ok None /\
  fst (predict (Ok (DDict r)) s)
  = Ok (error_body "Error in data preprocessing", 400%Z).
Proof.
  intros Hm Hf Hle Hv Hunseen.
  assert (Hp : fst (preprocess_input (DDict r) s) = Ok None).
  { apply preprocess_input_fails. unfold features, rbind.
    pose proof (encode_loop_raises (label_encoders s) f le v Hle
                  (le_transform_unseen le v Hunseen)
                  categorical_columns (DataFrame (DDict r)) Hf Hv) as Hloop.
    destruct (for_each_pure _ _ _); [discriminate|reflexivity]. }
  split; [exact Hp|].
  apply predict_preprocessing_failed; [exact Hm| |exact Hp].
  destruct r; [discriminate|reflexivity].
Qed.

(** C10: a categorical field of the record that has no entry in the
    encoder table goes through the encoding loop untouched and without an
    error, and reaches the feature row with its raw value; the loop changes
    a field only if it is a categorical column present both in the record
    and in the encoder table. *)
Theorem field_without_encoder_passes_through
  (encs : dict LabelEncoder) (r : frame) (col : string) (v : value) :
  In col categorical_columns ->
  lookup col r = Some v ->
  lookup col encs = None ->
  encode_column encs col r = Ok r /\
  (forall df',
     for_each_pure categorical_columns (encode_column encs) r = Ok df' ->
     lookup col df' = Some v) /\
  (forall X i,
     features encs (DDict r) = Ok X ->
     nth_error feature_columns i = Some col ->
     nth_error X i = Some v) /\
  (forall df' k,
     for_each_pure categorical_columns (encode_column encs) r = Ok df' ->
     lookup k df' <> lookup k r ->
     In k categorical_columns /\ mem k r = true /\ mem k encs = true).
Proof.
  intros Hcat Hv Henc.
  assert (Hloop : forall df',
             for_each_pure categorical_columns (encode_column encs) r = Ok df' ->
             lookup col df' = Some v).
  { intros df' H. rewrite <- Hv. eapply encode_loop_unchanged; [exact H|propositional]. }
  split; [apply encode_column_skip; propositional|].
  split; [exact Hloop|]. split.
  - intros X i HX Hi.
    apply features_inv in HX.
    destruct HX as (df1 & df2 & df3 & df4 & H1 & H2 & H3 & H4 & ->).
    rewrite nth_error_map, Hi. cbn [option_map]. f_equal.
    destruct (categorical_not_derived col Hcat) as (Ntc & _ & Neng & Nsvc).
    apply impute_total_charges_inv in H2. destruct H2 as (tc & mc & _ & _ & L2).
    apply add_engaged_inv in H3. destruct H3 as (c & _ & L3).
    apply add_total_services_inv in H4. destruct H4 as (cells & _ & L4).
    unfold cell_or_zero.
    rewrite L4, (eqb_neq_false _ _ Nsvc), L3, (eqb_neq_false _ _ Neng),
      L2, (eqb_neq_false _ _ Ntc).
    cbn [DataFrame] in H1. rewrite (Hloop df1 H1). reflexivity.
  - intros df' k H Hk.
    destruct (in_dec string_dec k categorical_columns) as [I|NI].
    + split; [exact I|]. unfold mem.
      destruct (lookup k r) as [vk|] eqn:Er.
      * destruct (lookup k encs) as [lk|] eqn:Ee; [propositional|].
        exfalso. apply Hk. rewrite <- Er.
        eapply encode_loop_unchanged; [exact H|propositional].
      * exfalso. apply Hk. rewrite <- Er.
        eapply encode_loop_unchanged; [exact H|propositional].
    + exfalso. apply Hk. eapply encode_loop_unchanged; [exact H|propositional].
Qed.

(** ** Imputation of [TotalCharges] *)



Lemma nth_error_fillna_column (c other : column) (i : nat) (v o : value) :
  nth_error c i = Some v -> nth_error other i = Some o ->
  nth_error (fillna_column c other) i = Some (fillna v o).
Proof.
  revert other i. induction c as [|x c IH]; intros other i Hc Ho.
  - destruct i; discriminate.
  - destruct other as [|y other]; [destruct i; discriminate|].
    destruct i as [|i]; cbn [fillna_column nth_error] in *.
    + congruence.
    + apply IH; assumption.
Qed.

Lemma load_and_preprocess_data_inv (csv df : table) :
  load_and_preprocess_data csv = Ok df ->
  exists churn tc mc,
    lookup "Churn" csv = Some churn /\
    lookup "TotalCharges" csv = Some tc /\
    lookup "MonthlyCharges" csv = Some mc /\
    forall k, lookup k df
              = if String.eqb k "TotalCharges"
                then Some (fillna_column (map to_numeric_coerce tc) mc)
                else if String.eqb k "Churn"
                then Some (map (fun x => VInt (if eq_str x "Yes" then 1 else 0)) churn)
                else lookup k csv.
Proof.
  unfold load_and_preprocess_data, rbind, get_column.
  destruct (lookup "Churn" csv) as [churn|] eqn:Ech; [|discriminate].
  rewrite lookup_set_item_other by discriminate.
  destruct (lookup "TotalCharges" csv) as [tc|] eqn:Etc; [|discriminate].
  rewrite lookup_set_item_same.
  rewrite !lookup_set_item_other by discriminate.
  destruct (lookup "MonthlyCharges" csv) as [mc|] eqn:Emc; [|discriminate].
  intros [= <-]. exists churn, tc, mc. repeat split.
  intros k. rewrite !lookup_set_item.
  destruct (String.eqb k "TotalCharges"); reflexivity.
Qed.


(** ** Derived features: serving against training *)

(** The sample encoder table is the one [main] computes from the sample
    frame. *)
Lemma telco_encoders_fitted :
  exists X y, training_data telco_csv = Ok (X, y, telco_encoders).
Proof. eexists. eexists. vm_compute. reflexivity. Qed.

Lemma annual_contract_fitted :
  fit (strs ["Two year"; "One year"; "One year"])
  = Ok {| classes_ := ["One year"; "Two year"] |}.
Proof. vm_compute. reflexivity. Qed.

(** C3 on the code: for the sample customer, whose contract is "One year",
    training computes [NEW_Engaged = 1] from the label, while serving with
    an encoder table fitted on one-year and two-year contracts only (codes
    0 and 1) computes [NEW_Engaged = 0]. *)
Theorem new_engaged_serving_follows_codes :
  lookup "Contract" customer = Some (VStr "One year") /\
  (exists df, feature_engineering (table_of_row customer) = Ok df /\
              cell "NEW_Engaged" 0 df = Some (VInt 1)) /\
  (exists X, features annual_encoders (DDict customer) = Ok X /\
             nth_error X 19 = Some (VInt 0)).
Proof.
  split; [reflexivity|]. split.
  - eexists. split; [vm_compute; reflexivity|reflexivity].
  - eexists. split; [vm_compute; reflexivity|reflexivity].
Qed.

(** C4 on the code: the sample customer has three of the seven services at
    "Yes".  Training counts 3.  Serving, with the encoder table fitted on
    the Telco vocabulary, where "Yes" is code 2 for six of the seven
    fields, counts 1. *)
Theorem total_services_serving_counts_code_1 :
  length (filter (fun c => eq_str (cell_or_zero customer c) "Yes") service_columns)
  = 3%nat /\
  (exists df, feature_engineering (table_of_row customer) = Ok df /\
              cell "NEW_TotalServices" 0 df = Some (VInt 3)) /\
  (exists X, features telco_encoders (DDict customer) = Ok X /\
             nth_error X 20 = Some (VInt 1)).
Proof.
  split; [reflexivity|]. split.
  - eexists. split; [vm_compute; reflexivity|reflexivity].
  - eexists. split; [vm_compute; reflexivity|reflexivity].
Qed.

(** ** Absent fields *)

Lemma encode_loop_absent (encs : dict LabelEncoder) (k : string) (df df' : frame) :
  for_each_pure categorical_columns (encode_column encs) df = Ok df' ->
  lookup k df = None -> lookup k df' = None.
Proof.
  intros H Hk. rewrite <- Hk. eapply encode_loop_unchanged; [exact H|propositional].
Qed.

Lemma get_cols_Ok_In (cols : list string) (df : frame) (vs : list value) (c : string) :
  get_cols cols df = Ok vs -> In c cols -> lookup c df <> None.
Proof.
  revert vs. induction cols as [|x cols IH]; intros vs H Hin; [contradiction|].
  cbn [get_cols] in H. unfold get_col in H.
  destruct (lookup x df) as [v|] eqn:Ex; [|discriminate].
  destruct (get_cols cols df) as [vs'|] eqn:Ecs; [|discriminate].
  destruct Hin as [<-|Hin]; [congruence|].
  eapply IH; [reflexivity|exact Hin].
Qed.

(** A record without one of the required columns never reaches line 72. *)
Lemma features_requires (encs : dict LabelEncoder) (r : frame) (col : string) :
  In col required_columns -> lookup col r = None ->
  is_ok (features encs (DDict r)) = false.
Proof.
  intros Hin Habs.
  destruct (features encs (DDict r)) as [X|e] eqn:HX; [|reflexivity].
  exfalso. apply features_inv in HX.
  destruct HX as (df1 & df2 & df3 & df4 & H1 & H2 & H3 & H4 & _).
  cbn [DataFrame] in H1.
  pose proof (encode_loop_absent _ _ _ _ H1 Habs) as A1.
  apply impute_total_charges_inv in H2. destruct H2 as (tc & mc & Etc & Emc & L2).
  apply add_engaged_inv in H3. destruct H3 as (c & Ec & L3).
  apply add_total_services_inv in H4. destruct H4 as (cells & Ecells & L4).
  unfold required_columns in Hin. apply in_app_or in Hin.
  destruct Hin as [Hin|Hin].
  - cbn [In] in Hin. destruct Hin as [<-|[<-|[<-|[]]]].
    + congruence.
    + congruence.
    + rewrite L2 in Ec. cbn [String.eqb Ascii.eqb Bool.eqb] in Ec. congruence.
  - apply (get_cols_Ok_In _ _ _ col Ecells Hin).
    rewrite L3, L2.
    assert (N1 : String.eqb col "NEW_Engaged" = false).
    { unfold service_columns in Hin. cbn [In] in Hin.
      repeat (destruct Hin as [<-|Hin]; [reflexivity|]). contradiction. }
    assert (N2 : String.eqb col "TotalCharges" = false).
    { unfold service_columns in Hin. cbn [In] in Hin.
      repeat (destruct Hin as [<-|Hin]; [reflexivity|]). contradiction. }
    rewrite N1, N2. exact A1.
Qed.

(** C5 on the code: a record that lacks [TotalCharges], [MonthlyCharges],
    [Contract] or one of the seven service fields is not completed with a
    0: [preprocess_input] returns [None] whatever the artifacts, and
    [/predict] answers 400. *)
Theorem absent_required_field_fails (s : app_state) (r : frame) (col : string) :
  In col required_columns ->
  lookup col r = None ->
  fst (preprocess_input (DDict r) s) = Ok None /\
  (model s <> None -> r <> [] ->
   fst (predict (Ok (DDict r)) s)
   = Ok (error_body "Error in data preprocessing", 400%Z)).
Proof.
  intros Hin Habs.
  assert (Hp : fst (preprocess_input (DDict r) s) = Ok None).
  { apply preprocess_input_fails. apply features_requires with col; assumption. }
  split; [exact Hp|]. intros Hm Hr.
  apply predict_preprocessing_failed; [exact Hm| |exact Hp].
  destruct r; [congruence|reflexivity].
Qed.

(** ** The feature row of a well-formed record *)

Lemma NoDup_categorical_columns : NoDup categorical_columns.
Proof.
  unfold categorical_columns.
  repeat (constructor;
          [cbn [In]; intros H;
           repeat (destruct H as [H|H]; [discriminate|]); exact H|]).
  constructor.
Qed.

(** After the loop, a column with an encoder holds the code of its label. *)
Lemma encode_loop_encoded (encs : dict LabelEncoder) (k : string)
  (le : LabelEncoder) (v : value) :
  lookup k encs = Some le ->
  forall (cols : list string) (df df' : frame),
    NoDup cols -> In k cols -> lookup k df = Some v ->
    for_each_pure cols (encode_column encs) df = Ok df' ->
    exists code, le_transform le v = Ok code /\ lookup k df' = Some code.
Proof.
  intros Hle. induction cols as [|c cols IH]; intros df df' ND Hin Hv H.
  - contradiction.
  - inversion ND as [|? ? Hnotin ND']; subst.
    cbn [for_each_pure] in H. unfold rbind in H.
    destruct (encode_column encs c df) as [df1|e] eqn:E; [|discriminate].
    destruct (String.eqb k c) eqn:Ekc.
    + apply String.eqb_eq in Ekc. subst c.
      unfold encode_column in E. rewrite Hv, Hle in E.
      destruct (le_transform le v) as [code|] eqn:Et; [|discriminate].
      injection E as <-. exists code. split; [reflexivity|].
      rewrite (encode_loop_unchanged encs k cols _ df' H) by (left; exact Hnotin).
      apply lookup_set_item_same.
    + assert (N : k <> c) by (intros ->; rewrite String.eqb_refl in Ekc; discriminate).
      apply (IH df1 df' ND').
      * destruct Hin as [Hin|Hin]; [congruence|exact Hin].
      * rewrite (encode_column_other _ _ _ _ _ E N). exact Hv.
      * exact H.
Qed.

(** X12: with the contract vocabulary of the Telco data, whose sorted
    order gives the codes 0, 1 and 2, line 59 of [app.py] computes what
    line 37 of [model_training.py] computes from the label. *)
Lemma new_engaged_agrees_on_telco_vocabulary
  (encs : dict LabelEncoder) (r : frame) (c : value) (X : list value) :
  lookup "Contract" encs
  = Some {| classes_ := ["Month-to-month"; "One year"; "Two year"] |} ->
  lookup "Contract" r = Some c ->
  features encs (DDict r) = Ok X ->
  nth_error X 19 = Some (VInt (engaged_label c)).
Proof.
  intros Hle Hc HX. apply features_inv in HX.
  destruct HX as (df1 & df2 & df3 & df4 & H1 & H2 & H3 & H4 & ->).
  cbn [DataFrame] in H1.
  destruct (encode_loop_encoded encs "Contract" _ c Hle categorical_columns r df1
              NoDup_categorical_columns) as (code & Hcode & Hdf1); trivial.
  { unfold categorical_columns. cbn [In]. do 12 right. left. reflexivity. }
  apply impute_total_charges_inv in H2. destruct H2 as (tc & mc & _ & _ & L2).
  apply add_engaged_inv in H3. destruct H3 as (c' & Ec' & L3).
  apply add_total_services_inv in H4. destruct H4 as (cells & _ & L4).
  rewrite L2 in Ec'. cbn [String.eqb Ascii.eqb Bool.eqb] in Ec'.
  rewrite Hdf1 in Ec'. injection Ec' as <-.
  assert (E19 : lookup "NEW_Engaged" df4 = Some (VInt (engaged_code code))).
  { rewrite L4, L3. reflexivity. }
  unfold feature_columns. cbn [map nth_error]. unfold cell_or_zero.
  rewrite E19. do 2 f_equal.
  destruct c as [| | | |l]; try discriminate.
  cbn [le_transform classes_ index_of] in Hcode.
  unfold engaged_label. cbn [eq_str].
  destruct (String.eqb l "Month-to-month") eqn:E0.
  { injection Hcode as <-. apply String.eqb_eq in E0. subst l. reflexivity. }
  destruct (String.eqb l "One year") eqn:E1.
  { injection Hcode as <-. reflexivity. }
  destruct (String.eqb l "Two year") eqn:E2.
  { injection Hcode as <-. reflexivity. }
  discriminate.
Qed.


Lemma length_standardize_all (xs : list float64) :
  forall ms ss : list Q,
    length ms = length xs -> length ss = length xs ->
    length (standardize_all xs ms ss) = length xs.
Proof.
  induction xs as [|x xs IH]; intros ms ss Hm Hs; [reflexivity|].
  destruct ms as [|m ms]; [discriminate|]. destruct ss as [|s0 ss]; [discriminate|].
  cbn [standardize_all length] in *. f_equal. apply IH; congruence.
Qed.

(** Whenever the scaler returns, it returns as many values as it took. *)
Lemma transform_length (sc : StandardScaler) (X : list value) (xs : list float64) :
  transform sc X = Ok xs -> length xs = length X.
Proof.
  unfold transform, rbind.
  destruct (as_floats X) as [ys|] eqn:E; [|discriminate].
  assert (L : length ys = length X).
  { clear -E. revert ys E. induction X as [|v X IH]; intros ys E.
    - injection E as <-. reflexivity.
    - cbn [as_floats] in E. unfold rbind in E.
      destruct (as_float v); [|discriminate].
      destruct (as_floats X) as [zs|]; [|discriminate].
      injection E as <-. cbn [length]. f_equal. apply IH. reflexivity. }
  destruct (existsb is_inf ys); [discriminate|].
  destruct (Nat.eqb (length ys) (n_features_in_ sc)) eqn:E1; [|discriminate].
  destruct (Nat.eqb (length (scale_ sc)) (n_features_in_ sc)) eqn:E2; [|discriminate].
  cbn [negb]. intros [= <-].
  apply Nat.eqb_eq in E1. apply Nat.eqb_eq in E2. unfold n_features_in_ in *.
  rewrite length_standardize_all; congruence.
Qed.

(** Whenever [preprocess_input] returns a row, the row has 21 values. *)
Lemma preprocess_length
  (encs : dict LabelEncoder) (sc : option StandardScaler) (data : pydata)
  (xs : list float64) :
  preprocess encs sc data = Ok xs -> length xs = 21%nat.
Proof.
  unfold preprocess, rbind.
  destruct (features encs data) as [X|] eqn:HX; [|discriminate].
  destruct sc as [sc|]; [|discriminate]. cbn [scaler_transform].
  intros H. rewrite (transform_length _ _ _ H).
  eapply features_length. exact HX.
Qed.


(** ** Order of the fields of the record *)

Lemma same_cells_set_item {A} (k : string) (v : A) (d1 d2 : dict A) :
  same_cells d1 d2 -> same_cells (set_item k v d1) (set_item k v d2).
Proof. intros H k'. rewrite !lookup_set_item, (H k'). reflexivity. Qed.

Lemma get_col_same (col : string) (df1 df2 : frame) :
  same_cells df1 df2 -> get_col col df1 = get_col col df2.
Proof. intros H. unfold get_col. rewrite (H col). reflexivity. Qed.

Lemma get_cols_same (cols : list string) (df1 df2 : frame) :
  same_cells df1 df2 -> get_cols cols df1 = get_cols cols df2.
Proof.
  intros H. induction cols as [|c cols IH]; cbn [get_cols]; [reflexivity|].
  rewrite IH, (get_col_same c _ _ H). reflexivity.
Qed.

Lemma encode_column_same (encs : dict LabelEncoder) (c : string) (df1 df2 : frame) :
  same_cells df1 df2 ->
  same_result (encode_column encs c df1) (encode_column encs c df2).
Proof.
  intros H. unfold encode_column. rewrite (H c).
  destruct (lookup c df2) as [v|]; [|exact H].
  destruct (lookup c encs) as [le|]; [|exact H].
  destruct (le_transform le v) as [v'|e]; cbn [same_result]; [|reflexivity].
  apply same_cells_set_item. exact H.
Qed.

Lemma encode_loop_same (encs : dict LabelEncoder) (cols : list string) :
  forall df1 df2 : frame,
    same_cells df1 df2 ->
    same_result (for_each_pure cols (encode_column encs) df1)
                (for_each_pure cols (encode_column encs) df2).
Proof.
  induction cols as [|c cols IH]; intros df1 df2 H; cbn [for_each_pure].
  - exact H.
  - pose proof (encode_column_same encs c df1 df2 H) as Hc.
    unfold rbind.
    destruct (encode_column encs c df1) as [a|e1];
      destruct (encode_column encs c df2) as [b|e2];
      cbn [same_result] in Hc; try contradiction.
    + apply IH. exact Hc.
    + exact Hc.
Qed.

Lemma impute_total_charges_same (df1 df2 : frame) :
  same_cells df1 df2 ->
  same_result (impute_total_charges df1) (impute_total_charges df2).
Proof.
  intros H. unfold impute_total_charges, rbind.
  rewrite (get_col_same "TotalCharges" _ _ H).
  destruct (get_col "TotalCharges" df2) as [tc|e]; [|reflexivity].
  pose proof (same_cells_set_item "TotalCharges" (to_numeric_coerce tc) _ _ H) as H'.
  rewrite (get_col_same "TotalCharges" _ _ H').
  destruct (get_col "TotalCharges" (set_item _ _ df2)) as [tc'|e]; [|reflexivity].
  rewrite (get_col_same "MonthlyCharges" _ _ H').
  destruct (get_col "MonthlyCharges" (set_item _ _ df2)) as [mc|e]; [|reflexivity].
  cbn [same_result]. apply same_cells_set_item. exact H'.
Qed.

Lemma add_engaged_same (df1 df2 : frame) :
  same_cells df1 df2 -> same_result (add_engaged df1) (add_engaged df2).
Proof.
  intros H. unfold add_engaged, rbind.
  rewrite (get_col_same "Contract" _ _ H).
  destruct (get_col "Contract" df2) as [c|e]; [|reflexivity].
  cbn [same_result]. apply same_cells_set_item. exact H.
Qed.

Lemma add_total_services_same (df1 df2 : frame) :
  same_cells df1 df2 ->
  same_result (add_total_services df1) (add_total_services df2).
Proof.
  intros H. unfold add_total_services, rbind.
  rewrite (get_cols_same service_columns _ _ H).
  destruct (get_cols service_columns df2) as [cells|e]; [|reflexivity].
  cbn [same_result]. apply same_cells_set_item. exact H.
Qed.

Lemma map_cell_or_zero_same (cols : list string) (df1 df2 : frame) :
  same_cells df1 df2 -> map (cell_or_zero df1) cols = map (cell_or_zero df2) cols.
Proof.
  intros H. apply map_ext. intros c. unfold cell_or_zero. rewrite (H c). reflexivity.
Qed.

(** Two records with the same fields give the same feature row, or fail
    with the same exception. *)
Lemma features_same_cells (encs : dict LabelEncoder) (r1 r2 : frame) :
  same_cells r1 r2 -> features encs (DDict r1) = features encs (DDict r2).
Proof.
  intros H. unfold features, rbind. cbn [DataFrame].
  pose proof (encode_loop_same encs categorical_columns r1 r2 H) as H1.
  destruct (for_each_pure categorical_columns (encode_column encs) r1) as [a1|e1];
    destruct (for_each_pure categorical_columns (encode_column encs) r2) as [b1|e1'];
    cbn [same_result] in H1; try contradiction; [|congruence].
  pose proof (impute_total_charges_same a1 b1 H1) as H2.
  destruct (impute_total_charges a1) as [a2|e2];
    destruct (impute_total_charges b1) as [b2|e2'];
    cbn [same_result] in H2; try contradiction; [|congruence].
  pose proof (add_engaged_same a2 b2 H2) as H3.
  destruct (add_engaged a2) as [a3|e3];
    destruct (add_engaged b2) as [b3|e3'];
    cbn [same_result] in H3; try contradiction; [|congruence].
  pose proof (add_total_services_same a3 b3 H3) as H4.
  destruct (add_total_services a3) as [a4|e4];
    destruct (add_total_services b3) as [b4|e4'];
    cbn [same_result] in H4; try contradiction; [|congruence].
  rewrite !get_cols_ensure_columns by apply incl_refl.
  f_equal. apply map_cell_or_zero_same. exact H4.
Qed.

(** The feature row does not depend on the order in which the fields of
    the record were given. *)
Lemma features_order_independent (encs : dict LabelEncoder) (r1 r2 : frame) :
  NoDup (keys r1) -> Permutation r1 r2 ->
  features encs (DDict r1) = features encs (DDict r2).
Proof.
  intros ND P. apply features_same_cells.
  apply Permutation_same_cells; assumption.
Qed.

Lemma preprocess_input_order_independent (r1 r2 : frame) (s : app_state) :
  NoDup (keys r1) -> Permutation r1 r2 ->
  preprocess_input (DDict r1) s = preprocess_input (DDict r2) s.
Proof.
  intros ND P. rewrite !preprocess_input_run. unfold preprocess.
  rewrite (features_order_independent _ r1 r2 ND P). reflexivity.
Qed.

(** X10: a raw feature that is neither required nor derived and is absent
    from the record is 0 in the feature row. *)
Lemma absent_optional_field_is_zero
  (encs : dict LabelEncoder) (r : frame) (X : list value) (col : string) (i : nat) :
  features encs (DDict r) = Ok X ->
  nth_error feature_columns i = Some col ->
  col <> "NEW_Engaged" -> col <> "NEW_TotalServices" ->
  lookup col r = None ->
  nth_error X i = Some (VInt 0).
Proof.
  intros HX Hi Neng Nsvc Habs.
  apply features_inv in HX.
  destruct HX as (df1 & df2 & df3 & df4 & H1 & H2 & H3 & H4 & ->).
  cbn [DataFrame] in H1.
  pose proof (encode_loop_absent _ _ _ _ H1 Habs) as A1.
  apply impute_total_charges_inv in H2. destruct H2 as (tc & mc & Etc & _ & L2).
  apply add_engaged_inv in H3. destruct H3 as (c & _ & L3).
  apply add_total_services_inv in H4. destruct H4 as (cells & _ & L4).
  assert (Ntc : col <> "TotalCharges") by congruence.
  rewrite nth_error_map, Hi. cbn [option_map]. f_equal. unfold cell_or_zero.
  rewrite L4, (eqb_neq_false _ _ Nsvc), L3, (eqb_neq_false _ _ Neng),
    L2, (eqb_neq_false _ _ Ntc), A1.
  reflexivity.
Qed.

(** ** Records on which the feature row exists *)






(** The sample customer, end to end. *)
Example predict_sample_customer :
  fst (predict (Ok (DDict customer)) telco_state)
  = Ok ([("prediction", JInt 1);
         ("churn_probability", JFloat (Fin (7 # 10)));
         ("no_churn_probability", JFloat (Fin (3 # 10)));
         ("message", JStr "Customer will churn")], 200%Z).
Proof. vm_compute. reflexivity. Qed.

(** * Further properties of the service *)

(** ** The answers of the routes *)

(** [/predict] as a function of the request and of the globals. *)
Lemma predict_run (req : request) (s : app_state) :
  fst (predict req s)
  = Ok match model s with
       | None => (error_body "Model not loaded", 500%Z)
       | Some clf =>
           match req with
           | Raise e => (error_body (exn_str e), 500%Z)
           | Ok data =>
               if truthy data then
                 match preprocess (label_encoders s) (scaler s) data with
                 | Raise _ => (error_body "Error in data preprocessing", 400%Z)
                 | Ok X =>
                     match clf_predict clf X, clf_predict_proba clf X with
                     | Ok prediction, Ok probability =>
                         ([("prediction", JInt prediction);
                           ("churn_probability", JFloat (snd probability));
                           ("no_churn_probability", JFloat (fst probability));
                           ("message",
                            JStr (if Z.eqb prediction 1 then "Customer will churn"
                                  else "Customer will not churn"))],
                          200%Z)
                     | Raise e, _ => (error_body (exn_str e), 500%Z)
                     | Ok _, Raise e => (error_body (exn_str e), 500%Z)
                     end
                 end
               else (error_body "No data provided", 400%Z)
           end
       end.
Proof.
  unfold predict, try_except.
  unfold bind at 1. unfold gets.
  destruct (model s) as [clf|]; [|reflexivity].
  unfold bind at 1. unfold lift at 1.
  destruct req as [data|e]; [|reflexivity].
  destruct (truthy data); cbn [negb]; [|reflexivity].
  unfold bind at 1. rewrite preprocess_input_run.
  destruct (preprocess (label_encoders s) (scaler s) data) as [X|e];
    cbn [to_option]; [|reflexivity].
  unfold bind, lift, ret.
  destruct (clf_predict clf X) as [p|e]; [|reflexivity].
  destruct (clf_predict_proba clf X) as [pr|e]; reflexivity.
Qed.

(** X1: no route lets an exception out.  Every request gets a JSON body
    and one of the statuses 200, 400 and 500, and every answer other than
    200 is a body with the single field [error]. *)
Theorem routes_always_answer (r : route) (s : app_state) :
  exists (b : dict jvalue) (status : Z),
    fst (handle r s) = Ok (b, status) /\
    (status = 200 \/ status = 400 \/ status = 500)%Z /\
    (status <> 200%Z -> exists msg, b = error_body msg).
Proof.
  destruct r as [req| |]; cbn [handle].
  - rewrite predict_run.
    destruct (model s) as [clf|];
      [|do 2 eexists; split; [reflexivity|split; [auto|eauto]]].
    destruct req as [data|e];
      [|do 2 eexists; split; [reflexivity|split; [auto|eauto]]].
    destruct (truthy data);
      [|do 2 eexists; split; [reflexivity|split; [auto|eauto]]].
    destruct (preprocess _ _ _) as [X|e];
      [|do 2 eexists; split; [reflexivity|split; [auto|eauto]]].
    destruct (clf_predict clf X) as [p|e];
      [|do 2 eexists; split; [reflexivity|split; [auto|eauto]]].
    destruct (clf_predict_proba clf X) as [pr|e];
      do 2 eexists; (split; [reflexivity|split; [auto|]]);
      [congruence|eauto].
  - unfold health_check, bind, gets, ret. cbn [fst].
    do 2 eexists. split; [reflexivity|]. split; [auto|congruence].
  - unfold model_info, bind, gets, ret.
    destruct (model s) as [clf|]; cbn [fst];
      do 2 eexists; (split; [reflexivity|split; [auto|]]);
      [congruence|eauto].
Qed.

(** X2: [/predict] answers 200 exactly when the model is loaded, the body
    is a non-empty value, [preprocess_input] returns a row and both
    methods of the classifier return; the body then holds the prediction,
    the second probability as [churn_probability], the first one as
    [no_churn_probability], and the message that goes with the
    prediction. *)
Theorem predict_200_iff (req : request) (s : app_state) (b : dict jvalue) :
  fst (predict req s) = Ok (b, 200%Z) <->
  exists clf data X prediction probability,
    model s = Some clf /\
    req = Ok data /\
    truthy data = true /\
    fst (preprocess_input data s) = Ok (Some X) /\
    clf_predict clf X = Ok prediction /\
    clf_predict_proba clf X = Ok probability /\
    b = [("prediction", JInt prediction);
         ("churn_probability", JFloat (snd probability));
         ("no_churn_probability", JFloat (fst probability));
         ("message", JStr (if Z.eqb prediction 1 then "Customer will churn"
                           else "Customer will not churn"))].
Proof.
  rewrite predict_run. split.
  - intros H.
    destruct (model s) as [clf|]; [|discriminate].
    destruct req as [data|e]; [|discriminate].
    destruct (truthy data) eqn:Ht; [|discriminate].
    destruct (preprocess (label_encoders s) (scaler s) data) as [X|e] eqn:Hp;
      [|discriminate].
    destruct (clf_predict clf X) as [p|e] eqn:E1; [|discriminate].
    destruct (clf_predict_proba clf X) as [pr|e] eqn:E2; [|discriminate].
    injection H as <-.
    exists clf, data, X, p, pr. repeat split; try assumption.
    rewrite preprocess_input_run, Hp. reflexivity.
  - intros (clf & data & X & p & pr & Hm & -> & Ht & Hp & E1 & E2 & ->).
    rewrite preprocess_input_run in Hp. cbn [fst] in Hp.
    rewrite Hm, Ht.
    destruct (preprocess (label_encoders s) (scaler s) data) as [X'|e];
      cbn [to_option] in Hp; [|discriminate].
    injection Hp as ->. rewrite E1, E2. reflexivity.
Qed.

(** X3: with the model loaded, a failure that is not a preprocessing
    failure is answered 500 with the text of the exception: a body that
    [get_json] cannot read, and a classifier that raises on the row. *)
Theorem predict_unexpected_failure (s : app_state) (clf : classifier) (e : exn) :
  model s = Some clf ->
  fst (predict (Raise e) s) = Ok (error_body (exn_str e), 500%Z) /\
  (forall data X,
     truthy data = true ->
     fst (preprocess_input data s) = Ok (Some X) ->
     clf_predict clf X = Raise e \/
     (is_ok (clf_predict clf X) = true /\ clf_predict_proba clf X = Raise e) ->
     fst (predict (Ok data) s) = Ok (error_body (exn_str e), 500%Z)).
Proof.
  intros Hm. split.
  - rewrite predict_run, Hm. reflexivity.
  - intros data X Ht Hp Hclf.
    rewrite predict_run, Hm, Ht.
    rewrite preprocess_input_run in Hp. cbn [fst] in Hp.
    destruct (preprocess (label_encoders s) (scaler s) data) as [X'|e'];
      cbn [to_option] in Hp; [|discriminate].
    injection Hp as ->.
    destruct Hclf as [E1|[E1 E2]].
    + rewrite E1. reflexivity.
    + destruct (clf_predict clf X); [|discriminate]. rewrite E2. reflexivity.
Qed.

(** X4: a body that is valid JSON but not an object never gets a
    prediction: with the model loaded the answer is 400, "No data
    provided" for a falsy value and "Error in data preprocessing" for any
    other. *)
Theorem predict_non_object_body (s : app_state) (t : bool) :
  model s <> None ->
  fst (predict (Ok (DOther t)) s)
  = Ok (error_body (if t then "Error in data preprocessing"
                    else "No data provided"), 400%Z).
Proof.
  intros Hm. rewrite predict_run.
  destruct (model s) as [clf|]; [|congruence].
  cbn [truthy]. destruct t; [|reflexivity].
  unfold preprocess, features, rbind. cbn [DataFrame].
  assert (E : for_each_pure categorical_columns
                (encode_column (label_encoders s)) [] = Ok []).
  { generalize categorical_columns. intros cols.
    induction cols as [|c cols IH]; [reflexivity|].
    cbn [for_each_pure]. rewrite encode_column_skip by (left; reflexivity).
    exact IH. }
  rewrite E. reflexivity.
Qed.

(** ** Loading the artifacts *)

Lemma preprocess_without_scaler (encs : dict LabelEncoder) (data : pydata) :
  is_ok (preprocess encs None data) = false.
Proof.
  unfold preprocess, rbind. destruct (features encs data); reflexivity.
Qed.

(** X5: [load_model] never raises; it returns [True] exactly when the
    three files load, and the globals then hold the three loaded objects;
    when the model file does not load, no global is assigned. *)
Theorem load_model_all_or_false (files : model_files) (s : app_state) :
  exists (b : bool) (s' : app_state),
    load_model files s = (Ok b, s') /\
    (b = true <->
     is_ok (churn_model_pkl files) && is_ok (label_encoders_pkl files)
     && is_ok (scaler_pkl files) = true) /\
    (b = true ->
     model s' = to_option (churn_model_pkl files) /\
     Some (label_encoders s') = to_option (label_encoders_pkl files) /\
     scaler s' = to_option (scaler_pkl files)) /\
    (is_ok (churn_model_pkl files) = false -> s' = s).
Proof.
  unfold load_model, try_except, bind, lift, gets, put, ret.
  destruct (churn_model_pkl files) as [m|e1]; cbn [is_ok andb to_option].
  - destruct (label_encoders_pkl files) as [encs|e2]; cbn [is_ok andb to_option].
    + destruct (scaler_pkl files) as [sc|e3]; cbn [is_ok andb to_option];
        do 2 eexists; (split; [reflexivity|]);
        (split; [split; congruence|]);
        (split; [cbn; intros; repeat split; congruence|discriminate]).
    + do 2 eexists. split; [reflexivity|].
      split; [split; congruence|]. split; [discriminate|discriminate].
  - do 2 eexists. split; [reflexivity|].
    split; [split; congruence|]. split; [discriminate|reflexivity].
Qed.

(** X6: [load_model] is not all-or-nothing.  When the model file loads and
    one of the other two does not, it returns [False] but the model global
    stays assigned and the scaler is still [None]: [/health] then reports
    [model_loaded] true, and [/predict] answers 400 to every non-empty
    body. *)
Theorem partial_load_serves_no_prediction (files : model_files) (m : classifier) :
  churn_model_pkl files = Ok m ->
  is_ok (label_encoders_pkl files) && is_ok (scaler_pkl files) = false ->
  fst (load_model files initial_state) = Ok false /\
  fst (health_check (snd (load_model files initial_state)))
  = Ok ([("status", JStr "healthy"); ("model_loaded", JBool true)], 200%Z) /\
  forall data,
    truthy data = true ->
    fst (predict (Ok data) (snd (load_model files initial_state)))
    = Ok (error_body "Error in data preprocessing", 400%Z).
Proof.
  intros Hm Hfail.
  assert (Hs : exists encs,
             load_model files initial_state
             = (Ok false, {| model := Some m; label_encoders := encs;
                             scaler := None |})).
  { unfold load_model, try_except, bind, lift, gets, put, ret. rewrite Hm.
    destruct (label_encoders_pkl files) as [encs|e2]; cbn [is_ok andb] in *.
    - destruct (scaler_pkl files) as [sc|e3]; [discriminate|].
      eexists. reflexivity.
    - eexists. reflexivity. }
  destruct Hs as (encs & ->). cbn [fst snd].
  split; [reflexivity|]. split; [reflexivity|].
  intros data Ht. rewrite predict_run. cbn [model label_encoders scaler].
  rewrite Ht.
  pose proof (preprocess_without_scaler encs data) as Hp.
  destruct (preprocess encs None data); [discriminate|reflexivity].
Qed.

(** ** What the feature row depends on *)

(** X7: whenever [preprocess_input] returns a row, the row has exactly 21
    values. *)
Theorem preprocess_input_row_has_21
  (data : pydata) (s : app_state) (row : list float64) :
  fst (preprocess_input data s) = Ok (Some row) -> length row = 21%nat.
Proof.
  rewrite preprocess_input_run. cbn [fst]. intros H.
  destruct (preprocess (label_encoders s) (scaler s) data) as [xs|e] eqn:E;
    cbn [to_option] in H; [|discriminate].
  injection H as ->. eapply preprocess_length. exact E.
Qed.

(** X8: the answer of [/predict] does not depend on the order in which
    the fields of the JSON object were given. *)
Theorem predict_order_independent (r1 r2 : frame) (s : app_state) :
  NoDup (keys r1) -> Permutation r1 r2 ->
  fst (predict (Ok (DDict r1)) s) = fst (predict (Ok (DDict r2)) s).
Proof.
  intros ND P. rewrite !predict_run.
  assert (Ht : truthy (DDict r1) = truthy (DDict r2)).
  { destruct r1 as [|x r1].
    - apply Permutation_nil in P. subst r2. reflexivity.
    - destruct r2 as [|y r2]; [|reflexivity].
      apply Permutation_sym, Permutation_nil in P. discriminate. }
  rewrite Ht. unfold preprocess.
  rewrite (features_order_independent _ r1 r2 ND P). reflexivity.
Qed.








(** ** Records that are preprocessed *)




Lemma feature_columns_split :
  feature_columns
  = numeric_columns ++ ["TotalCharges"] ++ categorical_columns
    ++ ["NEW_Engaged"; "NEW_TotalServices"].
Proof. reflexivity. Qed.


(** ** Serving with the Telco vocabulary *)

Lemma get_cols_Ok_map (cols : list string) (df : frame) (cells : list value) :
  get_cols cols df = Ok cells -> cells = map (cell_or_zero df) cols.
Proof.
  revert cells. induction cols as [|c cols IH]; intros cells H; cbn [get_cols] in H.
  - injection H as <-. reflexivity.
  - unfold get_col in H.
    destruct (lookup c df) as [v|] eqn:Ev; [|discriminate].
    destruct (get_cols cols df) as [vs|]; [|discriminate].
    injection H as <-. cbn [map]. unfold cell_or_zero at 1. rewrite Ev.
    f_equal. apply IH. reflexivity.
Qed.

Lemma length_filter_map {A B} (p : B -> bool) (f : A -> B) (l : list A) :
  length (filter p (map f l)) = length (filter (fun a => p (f a)) l).
Proof.
  induction l as [|a l IH]; cbn [map filter]; [reflexivity|].
  destruct (p (f a)); cbn [length]; congruence.
Qed.

(** After the loop, the cell of a column that has an encoder is the
    position of the record's label in [classes_]. *)
Lemma encoded_cell (encs : dict LabelEncoder) (c : string) (le : LabelEncoder)
  (r df1 : frame) (v : value) :
  lookup c encs = Some le -> In c categorical_columns ->
  lookup c r = Some v ->
  for_each_pure categorical_columns (encode_column encs) r = Ok df1 ->
  exists l i, v = VStr l /\ index_of l (classes_ le) = Some i /\
              lookup c df1 = Some (VInt (Z.of_nat i)).
Proof.
  intros Hle Hc Hv H1.
  destruct (encode_loop_encoded encs c le v Hle categorical_columns r df1
              NoDup_categorical_columns Hc Hv H1) as (code & Hcode & Hdf1).
  destruct v as [| | | |l]; try discriminate.
  cbn [le_transform] in Hcode.
  destruct (index_of l (classes_ le)) as [i|] eqn:Ei; [|discriminate].
  injection Hcode as <-. exists l, i. repeat split; assumption.
Qed.

Lemma yes_no_code_1 (l : string) (i : nat) :
  index_of l (classes_ yes_no) = Some i ->
  eq_int (VInt (Z.of_nat i)) 1 = String.eqb l "Yes".
Proof.
  cbn [classes_ yes_no index_of].
  destruct (String.eqb l "No") eqn:E0.
  - intros [= <-]. apply String.eqb_eq in E0. subst l. reflexivity.
  - destruct (String.eqb l "Yes"); [|discriminate]. intros [= <-]. reflexivity.
Qed.

Lemma internet_code_1 (l : string) (i : nat) :
  index_of l (classes_ internet) = Some i ->
  eq_int (VInt (Z.of_nat i)) 1 = String.eqb l "No internet service".
Proof.
  cbn [classes_ internet index_of].
  destruct (String.eqb l "No") eqn:E0.
  - intros [= <-]. apply String.eqb_eq in E0. subst l. reflexivity.
  - destruct (String.eqb l "No internet service"); [intros [= <-]; reflexivity|].
    destruct (String.eqb l "Yes"); [|discriminate]. intros [= <-]. reflexivity.
Qed.

Lemma service_is_categorical (c : string) :
  In c service_columns -> In c categorical_columns.
Proof.
  unfold service_columns, categorical_columns. cbn [In].
  intros H. repeat (destruct H as [<-|H]; [propositional|]). contradiction.
Qed.

(** X13: what line 60-62 of [app.py] count when the encoders are those of
    the Telco vocabulary: [PhoneService] when it is "Yes", and each of the
    six internet services when it is "No internet service", the label
    whose code is 1; a service that is "Yes" is not counted. *)
Theorem total_services_on_telco_vocabulary
  (encs : dict LabelEncoder) (r : frame) (X : list value) :
  lookup "PhoneService" encs = Some yes_no ->
  (forall c, In c (tl service_columns) -> lookup c encs = Some internet) ->
  features encs (DDict r) = Ok X ->
  nth_error X 20
  = Some (VInt (Z.of_nat
       (length (filter (fun c => eq_str (cell_or_zero r c) (label_of_code_1 c))
                  service_columns)))).
Proof.
  intros Hphone Hnet HX. apply features_inv in HX.
  destruct HX as (df1 & df2 & df3 & df4 & H1 & H2 & H3 & H4 & ->).
  cbn [DataFrame] in H1.
  apply impute_total_charges_inv in H2. destruct H2 as (tc & mc & _ & _ & L2).
  apply add_engaged_inv in H3. destruct H3 as (ct & _ & L3).
  apply add_total_services_inv in H4. destruct H4 as (cells & Ecells & L4).
  assert (E20 : lookup "NEW_TotalServices" df4 = Some (VInt (count_eq_1 cells))).
  { rewrite L4. reflexivity. }
  unfold feature_columns. cbn [map nth_error]. unfold cell_or_zero at 1.
  rewrite E20. do 3 f_equal.
  pose proof (get_cols_Ok_map _ _ _ Ecells) as ->.
  unfold count_eq_1. rewrite length_filter_map.
  apply (f_equal Z.of_nat). apply (f_equal (@length string)).
  apply filter_ext_in. intros c Hc.
  pose proof (service_is_categorical c Hc) as Hcat.
  destruct (categorical_not_derived c Hcat) as (Ntc & _ & Neng & _).
  assert (E3 : lookup c df3 = lookup c df1).
  { rewrite L3, (eqb_neq_false _ _ Neng), L2, (eqb_neq_false _ _ Ntc). reflexivity. }
  pose proof (get_cols_Ok_In _ _ _ c Ecells Hc) as Hpresent.
  rewrite E3 in Hpresent.
  destruct (lookup c r) as [v|] eqn:Ev;
    [|exfalso; apply Hpresent; eapply encode_loop_absent; eassumption].
  unfold cell_or_zero. rewrite E3, Ev.
  unfold service_columns in Hc. cbn [In] in Hc.
  destruct Hc as [<-|Hc].
  - destruct (encoded_cell encs _ yes_no r df1 v Hphone Hcat Ev H1)
      as (l & i & -> & Hi & ->).
    apply yes_no_code_1. exact Hi.
  - assert (Hle : lookup c encs = Some internet).
    { apply Hnet. unfold service_columns. cbn [tl In]. exact Hc. }
    destruct (encoded_cell encs c internet r df1 v Hle Hcat Ev H1)
      as (l & i & -> & Hi & ->).
    rewrite (internet_code_1 l i Hi).
    repeat (destruct Hc as [<-|Hc]; [reflexivity|]). contradiction.
Qed.

(** ** Raw strings at the scaler *)

Lemma as_floats_rejects (X : list value) (l : string) :
  In (VStr l) X -> py_float l = None -> is_ok (as_floats X) = false.
Proof.
  intros Hin Hl. induction X as [|v X IH]; [contradiction|].
  cbn [as_floats]. unfold rbind.
  destruct Hin as [->|Hin].
  - cbn [as_float]. rewrite Hl. reflexivity.
  - destruct (as_float v); [|reflexivity].
    specialize (IH Hin). destruct (as_floats X); [discriminate|reflexivity].
Qed.

(** X14: a categorical field without an encoder gets through the
    encoding, but its label does not get through the scaler: when the
    label is not the text of a number, [preprocess_input] returns [None]. *)
Theorem unencoded_label_is_rejected
  (s : app_state) (r : frame) (col l : string) :
  In col categorical_columns ->
  lookup col (label_encoders s) = None ->
  lookup col r = Some (VStr l) ->
  py_float l = None ->
  fst (preprocess_input (DDict r) s) = Ok None.
Proof.
  intros Hcat Henc Hv Hl. rewrite preprocess_input_run. cbn [fst].
  unfold preprocess, rbind.
  destruct (features (label_encoders s) (DDict r)) as [X|e] eqn:HX; [|reflexivity].
  assert (Hin : In (VStr l) X).
  { apply features_inv in HX.
    destruct HX as (df1 & df2 & df3 & df4 & H1 & H2 & H3 & H4 & ->).
    cbn [DataFrame] in H1.
    apply impute_total_charges_inv in H2. destruct H2 as (tc & mc & _ & _ & L2).
    apply add_engaged_inv in H3. destruct H3 as (ct & _ & L3).
    apply add_total_services_inv in H4. destruct H4 as (cells & _ & L4).
    destruct (categorical_not_derived col Hcat) as (Ntc & _ & Neng & Nsvc).
    apply in_map_iff. exists col. split.
    - unfold cell_or_zero.
      rewrite L4, (eqb_neq_false _ _ Nsvc), L3, (eqb_neq_false _ _ Neng),
        L2, (eqb_neq_false _ _ Ntc).
      rewrite (encode_loop_unchanged _ col _ _ _ H1) by (right; left; exact Henc).
      rewrite Hv. reflexivity.
    - rewrite feature_columns_split. apply in_or_app. right.
      apply in_or_app. right. apply in_or_app. left. exact Hcat. }
  destruct (scaler s) as [sc|]; [|reflexivity].
  cbn [scaler_transform]. unfold transform, rbind.
  pose proof (as_floats_rejects X l Hin Hl) as Hbad.
  destruct (as_floats X); [discriminate|reflexivity].
Qed.

(** * Further properties of the training pipeline *)

(** ** [feature_engineering] *)

Lemma get_column_Ok (col : string) (df : table) (c : column) :
  get_column col df = Ok c <-> lookup col df = Some c.
Proof. unfold get_column. destruct (lookup col df); split; congruence. Qed.

Lemma get_columns_names (names : list string) (df : table) :
  forall cols,
    get_columns names df = Ok cols ->
    Forall2 (fun c col => lookup c df = Some col) names cols.
Proof.
  induction names as [|c names IH]; intros cols H; cbn [get_columns] in H.
  - injection H as <-. constructor.
  - unfold get_column in H.
    destruct (lookup c df) as [col|] eqn:Ec; [|discriminate].
    destruct (get_columns names df) as [cols'|]; [|discriminate].
    injection H as <-. constructor; [exact Ec|]. apply IH. reflexivity.
Qed.

Lemma get_columns_present (names : list string) (df : table) :
  (forall c, In c names -> lookup c df <> None) <->
  is_ok (get_columns names df) = true.
Proof.
  induction names as [|c names IH]; cbn [get_columns].
  - split; [reflexivity|contradiction].
  - unfold get_column. split.
    + intros H.
      assert (Hrest : is_ok (get_columns names df) = true).
      { apply IH. intros x Hx. apply H. right. exact Hx. }
      destruct (lookup c df) as [col|] eqn:Ec.
      * destruct (get_columns names df); [reflexivity|discriminate].
      * exfalso. apply (H c); [left; reflexivity|exact Ec].
    + intros H x [<-|Hx].
      * destruct (lookup c df); [discriminate|].
        destruct (get_columns names df); discriminate.
      * apply IH; [|exact Hx].
        destruct (lookup c df); destruct (get_columns names df);
          try discriminate; reflexivity.
Qed.

Lemma get_columns_same (names : list string) (df1 df2 : table) :
  (forall c, In c names -> lookup c df1 = lookup c df2) ->
  get_columns names df1 = get_columns names df2.
Proof.
  induction names as [|c names IH]; intros H; cbn [get_columns]; [reflexivity|].
  rewrite IH by (intros x Hx; apply H; right; exact Hx).
  unfold get_column. rewrite (H c) by (left; reflexivity). reflexivity.
Qed.

Lemma service_not_engaged (c : string) :
  In c service_columns -> c <> "NEW_Engaged".
Proof.
  unfold service_columns. cbn [In].
  intros H. repeat (destruct H as [<-|H]; [discriminate|]). contradiction.
Qed.

Lemma feature_engineering_inv (df df' : table) :
  feature_engineering df = Ok df' ->
  exists contract cols,
    lookup "Contract" df = Some contract /\
    get_columns service_columns df = Ok cols /\
    forall k, lookup k df'
              = if String.eqb k "NEW_TotalServices"
                then Some (map VInt (count_yes (length contract) cols))
                else if String.eqb k "NEW_Engaged"
                then Some (map (fun x => VInt (engaged_label x)) contract)
                else lookup k df.
Proof.
  unfold feature_engineering, rbind, get_column.
  destruct (lookup "Contract" df) as [contract|] eqn:Ec; [|discriminate].
  rewrite (get_columns_same service_columns _ df).
  - destruct (get_columns service_columns df) as [cols|] eqn:Ecols; [|discriminate].
    intros [= <-]. exists contract, cols. repeat split.
    intros k. rewrite !lookup_set_item. reflexivity.
  - intros c Hc. apply lookup_set_item_other. apply service_not_engaged. exact Hc.
Qed.

Lemma nth_error_add_indicator (acc : list Z) (c : column) (i : nat) (a : Z) (v : value) :
  nth_error acc i = Some a -> nth_error c i = Some v ->
  nth_error (add_indicator acc c) i
  = Some (a + (if eq_str v "Yes" then 1 else 0))%Z.
Proof.
  revert c i. induction acc as [|x acc IH]; intros c i Ha Hv.
  - destruct i; discriminate.
  - destruct c as [|y c]; [destruct i; discriminate|].
    destruct i as [|i]; cbn [add_indicator nth_error] in *.
    + injection Ha as ->. injection Hv as ->. reflexivity.
    + apply IH; assumption.
Qed.

Lemma nth_error_count (df : table) (i : nat) (names : list string) (cols : list column) :
  Forall2 (fun c col => lookup c df = Some col) names cols ->
  (forall c, In c names -> cell c i df <> None) ->
  forall (acc : list Z) (a : Z),
    nth_error acc i = Some a ->
    nth_error (fold_left add_indicator cols acc) i
    = Some (a + Z.of_nat (length (filter (yes_at df i) names)))%Z.
Proof.
  induction 1 as [|c col names cols Hc Hrest IH]; intros Hrows acc a Ha.
  - cbn [fold_left filter length]. rewrite Ha. f_equal. lia.
  - cbn [fold_left filter].
    assert (Hv : exists v, nth_error col i = Some v).
    { specialize (Hrows c (or_introl eq_refl)). unfold cell in Hrows.
      rewrite Hc in Hrows. destruct (nth_error col i) as [v|]; [eauto|congruence]. }
    destruct Hv as (v & Hv).
    rewrite (IH (fun x Hx => Hrows x (or_intror Hx)) _ _
               (nth_error_add_indicator acc col i a v Ha Hv)).
    unfold yes_at at 2, cell. rewrite Hc, Hv.
    destruct (eq_str v "Yes"); cbn [length]; f_equal; lia.
Qed.

(** X15: [feature_engineering], row by row: [NEW_Engaged] is 1 exactly
    when the contract of the row is 'One year' or 'Two year', and
    [NEW_TotalServices] is the number of the seven service columns whose
    cell in the row is 'Yes'. *)
Theorem feature_engineering_rows (df df' : table) (n i : nat) :
  n_rows n df -> (i < n)%nat ->
  feature_engineering df = Ok df' ->
  exists contract,
    cell "Contract" i df = Some contract /\
    cell "NEW_Engaged" i df' = Some (VInt (engaged_label contract)) /\
    cell "NEW_TotalServices" i df'
    = Some (VInt (Z.of_nat (length (filter (yes_at df i) service_columns)))).
Proof.
  intros Hn Hi H. apply feature_engineering_inv in H.
  destruct H as (contract & cols & Ec & Ecols & L).
  assert (Hrow : forall c col, lookup c df = Some col ->
                               exists v, nth_error col i = Some v).
  { intros c col Hc. destruct (nth_error col i) as [v|] eqn:Ev; [eauto|].
    apply nth_error_None in Ev. rewrite (Hn c col Hc) in Ev. lia. }
  destruct (Hrow _ _ Ec) as (ct & Hct).
  exists ct. unfold cell. rewrite Ec, !L.
  cbn [String.eqb Ascii.eqb Bool.eqb].
  split; [exact Hct|]. split.
  - rewrite nth_error_map, Hct. reflexivity.
  - rewrite nth_error_map. unfold count_yes.
    rewrite (nth_error_count df i service_columns cols
               (get_columns_names _ _ _ Ecols)) with (a := 0%Z).
    + reflexivity.
    + intros c Hc. unfold cell.
      pose proof (proj2 (get_columns_present service_columns df)) as Hp.
      rewrite Ecols in Hp. specialize (Hp eq_refl c Hc).
      destruct (lookup c df) as [col|] eqn:Elc; [|congruence].
      destruct (Hrow _ _ Elc) as (v & ->). discriminate.
    + apply nth_error_repeat. rewrite (Hn _ _ Ec). exact Hi.
Qed.

(** X16: the two preparation steps fail exactly on a missing column:
    [load_and_preprocess_data] needs [Churn], [TotalCharges] and
    [MonthlyCharges], [feature_engineering] needs [Contract] and the seven
    service columns; with them, each returns a frame. *)
Theorem preparation_needs_columns (df : table) :
  (is_ok (load_and_preprocess_data df) = true <->
   forall c, In c ["Churn"; "TotalCharges"; "MonthlyCharges"] -> lookup c df <> None)
  /\
  (is_ok (feature_engineering df) = true <->
   forall c, In c ("Contract" :: service_columns) -> lookup c df <> None).
Proof.
  split.
  - unfold load_and_preprocess_data, rbind, get_column.
    destruct (lookup "Churn" df) as [churn|] eqn:Ech.
    + rewrite lookup_set_item_other by discriminate.
      destruct (lookup "TotalCharges" df) as [tc|] eqn:Etc.
      * rewrite lookup_set_item_same.
        rewrite !lookup_set_item_other by discriminate.
        destruct (lookup "MonthlyCharges" df) as [mc|] eqn:Emc.
        -- split; [|reflexivity]. intros _ c Hc. cbn [In] in Hc.
           destruct Hc as [<-|[<-|[<-|[]]]]; congruence.
        -- split; [discriminate|]. intros H. exfalso.
           apply (H "MonthlyCharges"); [cbn [In]; auto|exact Emc].
      * split; [discriminate|]. intros H. exfalso.
        apply (H "TotalCharges"); [cbn [In]; auto|exact Etc].
    + split; [discriminate|]. intros H. exfalso.
      apply (H "Churn"); [cbn [In]; auto|exact Ech].
  - unfold feature_engineering, rbind, get_column.
    destruct (lookup "Contract" df) as [contract|] eqn:Ec.
    + rewrite (get_columns_same service_columns _ df)
        by (intros c Hc; apply lookup_set_item_other, service_not_engaged, Hc).
      pose proof (get_columns_present service_columns df) as Hp.
      destruct (get_columns service_columns df) as [cols|] eqn:Ecols.
      * split; [|reflexivity]. intros _ c [<-|Hc]; [congruence|].
        apply (proj2 Hp eq_refl c Hc).
      * split; [discriminate|]. intros H.
        apply (proj1 Hp). intros c Hc. apply H. right. exact Hc.
    + split; [discriminate|]. intros H. exfalso.
      apply (H "Contract"); [left; reflexivity|exact Ec].
Qed.

(** ** [encode_categorical_features] *)

Lemma fit_encode_column_other (c k : string)
  (df df1 : table) (encs encs1 : dict LabelEncoder) :
  fit_encode_column c (df, encs) = Ok (df1, encs1) -> k <> c ->
  lookup k df1 = lookup k df /\ lookup k encs1 = lookup k encs.
Proof.
  unfold fit_encode_column, rbind. intros H N.
  destruct (lookup c df) as [col|].
  - destruct (fit col) as [le|]; [|discriminate].
    destruct (transform_column le col) as [codes|]; [|discriminate].
    injection H as <- <-. split; apply lookup_set_item_other; exact N.
  - injection H as <- <-. split; reflexivity.
Qed.

Lemma fit_encode_column_absent (c : string) (df : table) (encs : dict LabelEncoder) :
  lookup c df = None -> fit_encode_column c (df, encs) = Ok (df, encs).
Proof. unfold fit_encode_column. intros ->. reflexivity. Qed.

Lemma fit_encode_column_at (c : string) (col : column)
  (df df1 : table) (encs encs1 : dict LabelEncoder) :
  fit_encode_column c (df, encs) = Ok (df1, encs1) ->
  lookup c df = Some col ->
  exists le codes,
    fit col = Ok le /\ transform_column le col = Ok codes /\
    lookup c df1 = Some codes /\ lookup c encs1 = Some le.
Proof.
  unfold fit_encode_column, rbind. intros H Hc. rewrite Hc in H.
  destruct (fit col) as [le|] eqn:Hfit; [|discriminate].
  destruct (transform_column le col) as [codes|] eqn:Htr; [|discriminate].
  injection H as <- <-. exists le, codes.
  split; [reflexivity|]. split; [exact Htr|].
  split; apply lookup_set_item_same.
Qed.

(** The loop leaves alone every column that is not categorical, and every
    categorical column that the frame does not have. *)
Lemma fit_encode_loop_other (k : string) :
  forall (cols : list string) (df df' : table) (encs encs' : dict LabelEncoder),
    for_each_pure cols fit_encode_column (df, encs) = Ok (df', encs') ->
    ~ In k cols \/ lookup k df = None ->
    lookup k df' = lookup k df /\ lookup k encs' = lookup k encs.
Proof.
  induction cols as [|c cols IH]; intros df df' encs encs' H Hk;
    cbn [for_each_pure] in H.
  - injection H as <- <-. split; reflexivity.
  - unfold rbind in H.
    destruct (fit_encode_column c (df, encs)) as [[df1 encs1]|] eqn:E; [|discriminate].
    destruct (String.eqb k c) eqn:Ekc.
    + apply String.eqb_eq in Ekc. subst c.
      destruct Hk as [Hk|Hk]; [exfalso; apply Hk; left; reflexivity|].
      rewrite fit_encode_column_absent in E by exact Hk.
      injection E as <- <-. apply (IH _ _ _ _ H). right. exact Hk.
    + assert (N : k <> c) by (intros ->; rewrite String.eqb_refl in Ekc; discriminate).
      destruct (fit_encode_column_other c k _ _ _ _ E N) as (E1 & E2).
      rewrite <- E1, <- E2. apply (IH _ _ _ _ H).
      destruct Hk as [Hk|Hk]; [left; intros I; apply Hk; right; exact I|].
      right. rewrite E1. exact Hk.
Qed.

(** A categorical column of the frame ends up encoded by the encoder
    fitted on that very column, which is the one saved for it. *)
Lemma fit_encode_loop_at (k : string) (col : column) :
  forall (cols : list string) (df df' : table) (encs encs' : dict LabelEncoder),
    NoDup cols -> In k cols -> lookup k df = Some col ->
    for_each_pure cols fit_encode_column (df, encs) = Ok (df', encs') ->
    exists le codes,
      fit col = Ok le /\ transform_column le col = Ok codes /\
      lookup k df' = Some codes /\ lookup k encs' = Some le.
Proof.
  induction cols as [|c cols IH]; intros df df' encs encs' ND Hin Hk H.
  - contradiction.
  - inversion ND as [|? ? Hnotin ND']; subst.
    cbn [for_each_pure] in H. unfold rbind in H.
    destruct (fit_encode_column c (df, encs)) as [[df1 encs1]|] eqn:E; [|discriminate].
    destruct (String.eqb k c) eqn:Ekc.
    + apply String.eqb_eq in Ekc. subst c.
      destruct (fit_encode_column_at k col _ _ _ _ E Hk)
        as (le & codes & Hfit & Htr & Hdf1 & Hencs1).
      destruct (fit_encode_loop_other k cols df1 df' encs1 encs' H
                  (or_introl Hnotin)) as (E1 & E2).
      exists le, codes. repeat split; congruence.
    + assert (N : k <> c) by (intros ->; rewrite String.eqb_refl in Ekc; discriminate).
      destruct (fit_encode_column_other c k _ _ _ _ E N) as (E1 & _).
      apply (IH df1 df' encs1 encs' ND'); [|congruence|exact H].
      destruct Hin as [Hin|Hin]; [congruence|exact Hin].
Qed.

Lemma transform_column_rows (le : LabelEncoder) (col codes : column) :
  transform_column le col = Ok codes ->
  forall i v, nth_error col i = Some v ->
              exists code, le_transform le v = Ok code /\ nth_error codes i = Some code.
Proof.
  revert codes. induction col as [|x col IH]; intros codes H i v Hv.
  - destruct i; discriminate.
  - cbn [transform_column] in H. unfold rbind in H.
    destruct (le_transform le x) as [cx|] eqn:Ex; [|discriminate].
    destruct (transform_column le col) as [cs|]; [|discriminate].
    injection H as <-. destruct i as [|i]; cbn [nth_error] in *.
    + injection Hv as <-. exists cx. split; [exact Ex|reflexivity].
    + apply (IH cs eq_refl i v Hv).
Qed.



(** X18: training and serving assign the same code.  A label that occurs
    in a categorical column of the training frame is encoded by
    [preprocess_input]'s loop, with the encoders training saved, to the
    code that stands in the training matrix. *)
Theorem serving_code_is_training_code
  (df df' : table) (encs : dict LabelEncoder) (c l : string) (i : nat) (r : frame) :
  encode_categorical_features df = Ok (df', encs) ->
  In c categorical_columns ->
  cell c i df = Some (VStr l) ->
  lookup c r = Some (VStr l) ->
  exists code,
    cell c i df' = Some code /\
    encode_column encs c r = Ok (set_item c code r).
Proof.
  unfold encode_categorical_features, cell. intros H Hc Hv Hr.
  destruct (lookup c df) as [col|] eqn:Ecol; [|discriminate].
  destruct (fit_encode_loop_at c col categorical_columns df df' [] encs
              NoDup_categorical_columns Hc Ecol H)
    as (le & codes & _ & Htr & Hdf' & Hencs).
  destruct (transform_column_rows le col codes Htr i _ Hv) as (code & Hcode & Hi).
  exists code. rewrite Hdf'. split; [exact Hi|].
  unfold encode_column. rewrite Hr, Hencs, Hcode. reflexivity.
Qed.





(** X20: the encoder table [encode_categorical_features] returns has an
    entry exactly for the categorical columns of the frame, and a column
    that is not categorical comes out as it went in. *)
Theorem encoder_table_entries
  (df df' : table) (encs : dict LabelEncoder) (c : string) :
  encode_categorical_features df = Ok (df', encs) ->
  (lookup c encs <> None <-> In c categorical_columns /\ lookup c df <> None) /\
  (~ In c categorical_columns -> lookup c df' = lookup c df).
Proof.
  unfold encode_categorical_features. intros H. split.
  - destruct (in_dec string_dec c categorical_columns) as [Hc|Hc].
    + destruct (lookup c df) as [col|] eqn:Ecol.
      * destruct (fit_encode_loop_at c col categorical_columns df df' [] encs
                    NoDup_categorical_columns Hc Ecol H)
          as (le & codes & _ & _ & _ & Hencs).
        rewrite Hencs. split; [intros _; split; [exact Hc|discriminate]|discriminate].
      * destruct (fit_encode_loop_other c categorical_columns df df' [] encs H
                    (or_intror Ecol)) as (_ & E2).
        rewrite E2. cbn [lookup]. split; [congruence|intros [_ N]; congruence].
    + destruct (fit_encode_loop_other c categorical_columns df df' [] encs H
                  (or_introl Hc)) as (_ & E2).
      rewrite E2. cbn [lookup]. split; [congruence|intros [I _]; contradiction].
  - intros Hc.
    apply (fit_encode_loop_other c categorical_columns df df' [] encs H).
    left. exact Hc.
Qed.

(** ** [main]: from the CSV to the training matrix *)

Lemma Forall2_nth_error {A B} (R : A -> B -> Prop) (l1 : list A) (l2 : list B) :
  Forall2 R l1 l2 ->
  forall i a, nth_error l1 i = Some a -> exists b, nth_error l2 i = Some b /\ R a b.
Proof.
  induction 1 as [|x y l1 l2 Hxy Hrest IH]; intros i a Ha.
  - destruct i; discriminate.
  - destruct i as [|i]; cbn [nth_error] in *.
    + injection Ha as <-. exists y. split; [reflexivity|exact Hxy].
    + apply IH. exact Ha.
Qed.

Lemma categorical_not_churn (c : string) :
  In c categorical_columns -> c <> "Churn".
Proof.
  unfold categorical_columns. cbn [In].
  intros H. repeat (destruct H as [<-|H]; [discriminate|]). contradiction.
Qed.

Lemma not_categorical (c : string) :
  In c numeric_columns \/ c = "TotalCharges" \/ c = "Churn"
  \/ c = "NEW_Engaged" \/ c = "NEW_TotalServices" ->
  ~ In c categorical_columns.
Proof.
  intros Hc Hin.
  destruct (categorical_not_derived c Hin) as (N1 & N2 & N3 & N4).
  pose proof (categorical_not_churn c Hin) as N5.
  destruct Hc as [Hc|[->|[->|[->| ->]]]]; try congruence.
  unfold numeric_columns in Hc. cbn [In] in Hc.
  destruct Hc as [<-|[<-|[<-|[]]]]; try congruence;
    unfold categorical_columns in Hin; cbn [In] in Hin;
    repeat (destruct Hin as [Hin|Hin]; [discriminate|]); exact Hin.
Qed.

(** What [main] has computed when it calls [train_model]. *)
Lemma training_data_inv (csv : table) (X : list column) (y : column)
  (encs : dict LabelEncoder) :
  training_data csv = Ok (X, y, encs) ->
  exists df1 df2 df3,
    load_and_preprocess_data csv = Ok df1 /\
    feature_engineering df1 = Ok df2 /\
    encode_categorical_features df2 = Ok (df3, encs) /\
    Forall2 (fun c col => lookup c df3 = Some col) feature_columns X /\
    lookup "Churn" df3 = Some y.
Proof.
  unfold training_data, rbind.
  destruct (load_and_preprocess_data csv) as [df1|] eqn:E1; [|discriminate].
  destruct (feature_engineering df1) as [df2|] eqn:E2; [|discriminate].
  destruct (encode_categorical_features df2) as [[df3 encs']|] eqn:E3; [|discriminate].
  cbn [fst snd].
  destruct (get_columns feature_columns df3) as [X'|] eqn:EX; [|discriminate].
  destruct (get_column "Churn" df3) as [y'|] eqn:Ey; [|discriminate].
  intros [= <- <- <-]. exists df1, df2, df3.
  repeat split; try assumption.
  - apply get_columns_names. exact EX.
  - apply get_column_Ok. exact Ey.
Qed.

(** X21: what [main] hands to [train_model].  The matrix has the 21
    feature columns; the target is 1 exactly in the rows whose [Churn] is
    'Yes'; and the [NEW_Engaged] column is computed from the contract
    labels of the CSV, before they are encoded. *)
Theorem training_data_target_and_shape
  (csv : table) (X : list column) (y : column) (encs : dict LabelEncoder) :
  training_data csv = Ok (X, y, encs) ->
  length X = 21%nat /\
  exists churn contract,
    lookup "Churn" csv = Some churn /\
    y = map (fun x => VInt (if eq_str x "Yes" then 1 else 0)) churn /\
    lookup "Contract" csv = Some contract /\
    nth_error X 19 = Some (map (fun x => VInt (engaged_label x)) contract).
Proof.
  intros H. apply training_data_inv in H.
  destruct H as (df1 & df2 & df3 & H1 & H2 & H3 & HX & Hy).
  split; [symmetry; apply (Forall2_length HX)|].
  apply load_and_preprocess_data_inv in H1.
  destruct H1 as (churn & tc & mc & Ech & _ & _ & L1).
  apply feature_engineering_inv in H2.
  destruct H2 as (contract & cols & Ec & _ & L2).
  unfold encode_categorical_features in H3.
  exists churn, contract. split; [exact Ech|]. split; [|split].
  - destruct (fit_encode_loop_other "Churn" _ _ _ _ _ H3) as (E & _).
    { left. apply not_categorical. auto. }
    rewrite E, L2, L1 in Hy. cbn [String.eqb Ascii.eqb Bool.eqb] in Hy.
    congruence.
  - rewrite L1 in Ec. exact Ec.
  - destruct (Forall2_nth_error _ _ _ HX 19 "NEW_Engaged" eq_refl) as (col & Hcol & Hl).
    rewrite Hcol. f_equal.
    destruct (fit_encode_loop_other "NEW_Engaged" _ _ _ _ _ H3) as (E & _).
    { left. apply not_categorical. auto 6. }
    rewrite E, L2 in Hl. cbn [String.eqb Ascii.eqb Bool.eqb] in Hl. congruence.
Qed.

Lemma raw_columns_split :
  raw_columns = numeric_columns ++ ["TotalCharges"] ++ categorical_columns.
Proof. reflexivity. Qed.

Lemma raw_in_features (c : string) :
  In c raw_columns -> In c feature_columns.
Proof.
  rewrite raw_columns_split, feature_columns_split. intros H.
  apply in_app_or in H. apply in_or_app. destruct H as [H|H]; [left; exact H|].
  right. apply in_app_or in H. apply in_or_app. destruct H as [H|H]; [left; exact H|].
  right. apply in_or_app. left. exact H.
Qed.

(** X22: the 19 raw features are the same in training and in serving.
    For a record that is a row of the training CSV, served with the
    encoders training saved, each of the first 19 values of the feature
    row is the value of that row in the same column of the training
    matrix: numbers unchanged, [TotalCharges] imputed by the same rule,
    labels encoded to the same codes. *)
Theorem raw_features_match_training
  (csv : table) (Xt : list column) (y : column) (encs : dict LabelEncoder)
  (i : nat) (r : frame) (Xs : list value) :
  training_data csv = Ok (Xt, y, encs) ->
  (forall c, In c raw_columns ->
             exists v, cell c i csv = Some v /\ lookup c r = Some v) ->
  features encs (DDict r) = Ok Xs ->
  forall c j,
    In c raw_columns -> nth_error feature_columns j = Some c ->
    exists col v,
      nth_error Xt j = Some col /\ nth_error col i = Some v /\
      nth_error Xs j = Some v.
Proof.
  intros Ht Hrow Hs c j Hc Hj.
  apply training_data_inv in Ht.
  destruct Ht as (t1 & t2 & t3 & T1 & T2 & T3 & HX & _).
  apply load_and_preprocess_data_inv in T1.
  destruct T1 as (churn & tcs & mcs & _ & Etcs & Emcs & LT1).
  apply feature_engineering_inv in T2.
  destruct T2 as (contract & cols & _ & _ & LT2).
  unfold encode_categorical_features in T3.
  apply features_inv in Hs.
  destruct Hs as (df1 & df2 & df3 & df4 & H1 & H2 & H3 & H4 & ->).
  cbn [DataFrame] in H1.
  apply impute_total_charges_inv in H2. destruct H2 as (tc & mc & Etc & Emc & L2).
  apply add_engaged_inv in H3. destruct H3 as (ct & _ & L3).
  apply add_total_services_inv in H4. destruct H4 as (cells & _ & L4).
  destruct (Forall2_nth_error _ _ _ HX j c Hj) as (col & Hcol & Hlc).
  exists col. rewrite Hcol, nth_error_map, Hj. cbn [option_map].
  unfold cell_or_zero.
  assert (Hraw_t : forall k, ~ In k categorical_columns ->
                             lookup k t3 = lookup k t2).
  { intros k Hk. apply (fit_encode_loop_other k _ _ _ _ _ T3). left. exact Hk. }
  assert (Hraw_s : forall k, ~ In k categorical_columns ->
                             lookup k df1 = lookup k r).
  { intros k Hk. eapply encode_loop_unchanged; [exact H1|left; exact Hk]. }
  assert (Hcsv : forall k, In k raw_columns ->
                           exists kc v, lookup k csv = Some kc /\
                                        nth_error kc i = Some v /\
                                        lookup k r = Some v).
  { intros k Hk. destruct (Hrow k Hk) as (v & Hv & Hr). unfold cell in Hv.
    destruct (lookup k csv) as [kc|]; [|discriminate]. eauto. }
  rewrite raw_columns_split in Hc. apply in_app_or in Hc.
  destruct Hc as [Hc|Hc]; [|apply in_app_or in Hc; destruct Hc as [Hc|Hc]].
  - (* a numeric column *)
    assert (Hin : In c raw_columns).
    { rewrite raw_columns_split. apply in_or_app. left. exact Hc. }
    destruct (Hcsv c Hin) as (kc & v & Ekc & Ev & Er).
    pose proof (not_categorical c (or_introl Hc)) as Ncat.
    assert (Et : lookup c t3 = lookup c csv).
    { rewrite (Hraw_t c Ncat), LT2, LT1.
      unfold numeric_columns in Hc. cbn [In] in Hc.
      destruct Hc as [<-|[<-|[<-|[]]]]; reflexivity. }
    assert (Es : lookup c df4 = lookup c r).
    { rewrite L4, L3, L2, <- (Hraw_s c Ncat).
      unfold numeric_columns in Hc. cbn [In] in Hc.
      destruct Hc as [<-|[<-|[<-|[]]]]; reflexivity. }
    exists v. rewrite Es, Er. split; [reflexivity|]. split; [|reflexivity].
    rewrite Et, Ekc in Hlc. injection Hlc as <-. exact Ev.
  - (* TotalCharges *)
    destruct Hc as [<-|[]].
    assert (Ntc : ~ In "TotalCharges" categorical_columns)
      by (apply not_categorical; auto).
    assert (Nmc : ~ In "MonthlyCharges" categorical_columns).
    { apply not_categorical. left. unfold numeric_columns. cbn [In]. auto. }
    destruct (Hcsv "TotalCharges") as (kt & vt & Ekt & Evt & Ert).
    { unfold raw_columns. cbn [In]. auto. }
    destruct (Hcsv "MonthlyCharges") as (km & vm & Ekm & Evm & Erm).
    { unfold raw_columns. cbn [In]. auto. }
    rewrite (Hraw_s _ Ntc), Ert in Etc. injection Etc as <-.
    rewrite (Hraw_s _ Nmc), Erm in Emc. injection Emc as <-.
    rewrite Ekt in Etcs. injection Etcs as <-.
    rewrite Ekm in Emcs. injection Emcs as <-.
    exists (fillna (to_numeric_coerce vt) vm).
    split; [reflexivity|]. split.
    + rewrite (Hraw_t _ Ntc), LT2, LT1 in Hlc.
      cbn [String.eqb Ascii.eqb Bool.eqb] in Hlc. injection Hlc as <-.
      apply nth_error_fillna_column; [|exact Evm].
      rewrite nth_error_map, Evt. reflexivity.
    + rewrite L4, L3, L2. reflexivity.
  - (* a categorical column *)
    assert (Hin : In c raw_columns).
    { rewrite raw_columns_split. apply in_or_app. right.
      apply in_or_app. right. exact Hc. }
    destruct (Hcsv c Hin) as (kc & v & Ekc & Ev & Er).
    destruct (categorical_not_derived c Hc) as (Ntc & _ & Neng & Nsvc).
    pose proof (categorical_not_churn c Hc) as Nch.
    assert (Et2 : lookup c t2 = Some kc).
    { rewrite LT2, (eqb_neq_false _ _ Nsvc), (eqb_neq_false _ _ Neng),
        LT1, (eqb_neq_false _ _ Ntc), (eqb_neq_false _ _ Nch). exact Ekc. }
    destruct (fit_encode_loop_at c kc categorical_columns t2 t3 [] encs
                NoDup_categorical_columns Hc Et2 T3)
      as (le & codes & _ & Htr & Ht3 & Hle).
    destruct (transform_column_rows le kc codes Htr i v Ev) as (code & Hcode & Hi).
    destruct (encode_loop_encoded encs c le v Hle categorical_columns r df1
                NoDup_categorical_columns Hc Er H1) as (code' & Hcode' & Hdf1).
    rewrite Hcode in Hcode'. injection Hcode' as <-.
    exists code. split; [reflexivity|]. split.
    + rewrite Ht3 in Hlc. injection Hlc as <-. exact Hi.
    + rewrite L4, (eqb_neq_false _ _ Nsvc), L3, (eqb_neq_false _ _ Neng),
        L2, (eqb_neq_false _ _ Ntc), Hdf1. reflexivity.
Qed.

(** ** What [/model_info] reports after training *)

Lemma keys_set_item_new {A} (k : string) (v : A) (d : dict A) :
  ~ In k (keys d) -> keys (set_item k v d) = keys d ++ [k].
Proof.
  unfold keys. induction d as [|[k0 v0] d IH]; intros N; cbn [set_item map app fst].
  - reflexivity.
  - destruct (String.eqb k k0) eqn:E.
    + apply String.eqb_eq in E. subst k0. exfalso. apply N. left. reflexivity.
    + cbn [map fst]. f_equal. apply IH. intros I. apply N. right. exact I.
Qed.

(** The encoder table gets one entry per categorical column of the frame,
    in the order of the loop. *)
Lemma fit_encode_loop_keys :
  forall (cols : list string) (df df' : table) (encs encs' : dict LabelEncoder),
    NoDup cols ->
    (forall c, In c cols -> ~ In c (keys encs)) ->
    for_each_pure cols fit_encode_column (df, encs) = Ok (df', encs') ->
    keys encs' = keys encs ++ filter (fun c => mem c df) cols.
Proof.
  induction cols as [|c cols IH]; intros df df' encs encs' ND Hnew H;
    cbn [for_each_pure] in H.
  - injection H as <- <-. cbn [filter]. rewrite app_nil_r. reflexivity.
  - inversion ND as [|? ? Hnotin ND']; subst. unfold rbind in H.
    destruct (fit_encode_column c (df, encs)) as [[df1 encs1]|] eqn:E; [|discriminate].
    assert (Hmem : forall k, In k cols -> mem k df1 = mem k df).
    { intros k Hk. unfold mem.
      destruct (fit_encode_column_other c k _ _ _ _ E) as (-> & _); [|reflexivity].
      intros ->. contradiction. }
    cbn [filter]. unfold mem at 1.
    destruct (lookup c df) as [col|] eqn:Ecol.
    + destruct (fit_encode_column_at c col _ _ _ _ E Ecol)
        as (le & codes & _ & _ & _ & _).
      assert (Eencs1 : keys encs1 = keys encs ++ [c]).
      { unfold fit_encode_column, rbind in E. rewrite Ecol in E.
        destruct (fit col) as [le'|]; [|discriminate].
        destruct (transform_column le' col) as [codes'|]; [|discriminate].
        injection E as _ <-. apply keys_set_item_new.
        apply Hnew. left. reflexivity. }
      assert (Hnew1 : forall k, In k cols -> ~ In k (keys encs1)).
      { intros k Hk. rewrite Eencs1. intros I. apply in_app_or in I.
        destruct I as [I|[->|[]]]; [|contradiction].
        apply (Hnew k); [right; exact Hk|exact I]. }
      rewrite (IH df1 df' encs1 encs' ND' Hnew1 H).
      rewrite Eencs1, <- app_assoc. cbn [app]. do 2 f_equal.
      apply filter_ext_in. exact Hmem.
    + rewrite fit_encode_column_absent in E by exact Ecol.
      injection E as <- <-.
      apply (IH df df' encs encs' ND'); [|exact H].
      intros k Hk. apply Hnew. right. exact Hk.
Qed.

(** X23: the [features] field of [/model_info] is the number of encoders,
    not the number of features.  With the artifacts of a training run it
    is 15, while the training matrix has 21 columns. *)
Theorem model_info_counts_encoders
  (csv : table) (X : list column) (y : column) (s : app_state) (clf : classifier) :
  training_data csv = Ok (X, y, label_encoders s) ->
  model s = Some clf ->
  fst (model_info s)
  = Ok ([("model_type", JStr (clf_type_name clf));
         ("features", JInt 15);
         ("status", JStr "loaded")], 200%Z)
  /\ length X = 21%nat.
Proof.
  intros Ht Hm. apply training_data_inv in Ht.
  destruct Ht as (df1 & df2 & df3 & _ & _ & H3 & HX & _).
  split; [|symmetry; apply (Forall2_length HX)].
  unfold encode_categorical_features in H3.
  pose proof (fit_encode_loop_keys categorical_columns df2 df3 [] (label_encoders s)
                NoDup_categorical_columns (fun c _ I => I) H3) as Hkeys.
  assert (Hall : filter (fun c => mem c df2) categorical_columns = categorical_columns).
  { apply forallb_filter_id. apply forallb_forall. intros c Hc. unfold mem.
    destruct (lookup c df2) as [col|] eqn:Ecol; [reflexivity|]. exfalso.
    destruct (fit_encode_loop_other c _ _ _ _ _ H3 (or_intror Ecol)) as (E3 & _).
    assert (Hf : In c feature_columns).
    { rewrite feature_columns_split. apply in_or_app. right.
      apply in_or_app. right. apply in_or_app. left. exact Hc. }
    apply In_nth_error in Hf. destruct Hf as (j & Hj).
    destruct (Forall2_nth_error _ _ _ HX j c Hj) as (col & _ & Hl).
    congruence. }
  cbn [keys map app] in Hkeys. rewrite Hall in Hkeys.
  assert (Hlen : length (label_encoders s) = 15%nat).
  { unfold keys in Hkeys. rewrite <- (length_map fst), Hkeys. reflexivity. }
  unfold model_info, bind, gets, ret. rewrite Hm. cbn [fst]. rewrite Hlen.
  reflexivity.
Qed.

End Pipeline.


(** * The theorems at concrete inputs

    The two library parsers are instantiated with [parse_decimal]. *)

(** C1, as stated, fails on the sample customer with the gender "Other":
    the answer of [/predict] is not a 400 whose message names the field. *)
Lemma unknown_category_field_not_reported :
  ~ (exists msg,
        fst (predict parse_decimal parse_decimal (Ok (DDict unknown_gender)) telco_state)
        = Ok ([("error", JStr msg)], 400%Z)
        /\ mentions "gender" msg = true).
Proof.
  intros (msg & H & M). vm_compute in H.
  injection H as <-. vm_compute in M. discriminate.
Qed.

(** The amended C1 on the same record. *)
Lemma unknown_category_is_rejected_witness :
  fst (preprocess_input parse_decimal parse_decimal (DDict unknown_gender) telco_state)
  = Ok None /\
  fst (predict parse_decimal parse_decimal (Ok (DDict unknown_gender)) telco_state)
  = Ok (error_body "Error in data preprocessing", 400%Z).
Proof.
  apply (unknown_category_is_rejected parse_decimal parse_decimal
           telco_state unknown_gender "gender"
           {| classes_ := ["Female"; "Male"] |} (VStr "Other")).
  - discriminate.
  - left. reflexivity.
  - vm_compute. reflexivity.
  - vm_compute. reflexivity.
  - intros l [= <-] [H|[H|[]]]; discriminate.
Defined.


(** C5 on the record of [test_predict_with_mock_model], which has no
    [OnlineSecurity]. *)
Lemma absent_required_field_fails_witness :
  fst (preprocess_input parse_decimal parse_decimal (DDict test_data) telco_state)
  = Ok None /\
  fst (predict parse_decimal parse_decimal (Ok (DDict test_data)) telco_state)
  = Ok (error_body "Error in data preprocessing", 400%Z).
Proof.
  destruct (absent_required_field_fails parse_decimal parse_decimal
              telco_state test_data "OnlineSecurity") as [Hp Hr].
  - right. right. right. right. left. reflexivity.
  - vm_compute. reflexivity.
  - split; [exact Hp|]. apply Hr; discriminate.
Defined.


(** C10 with the empty encoder table the module starts with. *)
Lemma field_without_encoder_passes_through_witness :
  encode_column [] "gender" customer = Ok customer /\
  exists X,
    features parse_decimal [] (DDict customer) = Ok X /\
    nth_error X 4 = Some (VStr "Male").
Proof.
  pose proof (field_without_encoder_passes_through parse_decimal
                [] customer "gender" (VStr "Male")
                (or_introl eq_refl) eq_refl eq_refl) as (Hstep & _ & HX & _).
  split; [exact Hstep|].
  eexists. split; [vm_compute; reflexivity|].
  apply HX; vm_compute; reflexivity.
Defined.

(** * The further properties at concrete inputs *)

Ltac in_list := cbn [In app tl]; first [left; reflexivity | right; in_list].

Ltac no_dup :=
  repeat (constructor;
          [cbn [In]; intros H;
           repeat (destruct H as [H|H]; [discriminate|]); exact H|]);
  constructor.

(** X3 on the sample customer, with a classifier that rejects the row. *)
Lemma predict_unexpected_failure_witness :
  fst (predict parse_decimal parse_decimal (Raise (ValueError "Input X contains NaN."))
         failing_state)
  = Ok (error_body "Input X contains NaN.", 500%Z) /\
  fst (predict parse_decimal parse_decimal (Ok (DDict customer)) failing_state)
  = Ok (error_body "Input X contains NaN.", 500%Z).
Proof.
  destruct (predict_unexpected_failure parse_decimal parse_decimal failing_state
              failing_classifier (ValueError "Input X contains NaN.") eq_refl)
    as [Hjson Hclf].
  split; [exact Hjson|].
  eapply Hclf.
  - reflexivity.
  - vm_compute. reflexivity.
  - left. reflexivity.
Defined.

(** X4 on a JSON list. *)
Lemma predict_non_object_body_witness :
  fst (predict parse_decimal parse_decimal (Ok (DOther true)) telco_state)
  = Ok (error_body "Error in data preprocessing", 400%Z).
Proof.
  apply (predict_non_object_body parse_decimal parse_decimal telco_state true).
  discriminate.
Defined.

(** X6 on a model directory without the scaler. *)
Lemma partial_load_serves_no_prediction_witness :
  fst (load_model files_without_scaler initial_state) = Ok false /\
  fst (health_check (snd (load_model files_without_scaler initial_state)))
  = Ok ([("status", JStr "healthy"); ("model_loaded", JBool true)], 200%Z) /\
  forall data,
    truthy data = true ->
    fst (predict parse_decimal parse_decimal (Ok data)
           (snd (load_model files_without_scaler initial_state)))
    = Ok (error_body "Error in data preprocessing", 400%Z).
Proof.
  apply (partial_load_serves_no_prediction parse_decimal parse_decimal
           files_without_scaler constant_classifier); reflexivity.
Defined.

(** X7 on the sample customer. *)
Lemma preprocess_input_row_has_21_witness :
  exists row,
    fst (preprocess_input parse_decimal parse_decimal (DDict customer) telco_state)
    = Ok (Some row) /\ length row = 21%nat.
Proof.
  eexists. split; [vm_compute; reflexivity|].
  apply (preprocess_input_row_has_21 parse_decimal parse_decimal
           (DDict customer) telco_state).
  vm_compute. reflexivity.
Defined.

(** X8 on the sample customer and the same fields in reverse order. *)
Lemma predict_order_independent_witness :
  fst (predict parse_decimal parse_decimal (Ok (DDict customer)) telco_state)
  = fst (predict parse_decimal parse_decimal (Ok (DDict customer_reversed)) telco_state).
Proof.
  apply (predict_order_independent parse_decimal parse_decimal
           customer customer_reversed telco_state).
  - unfold keys, customer. cbn [map fst]. no_dup.
  - apply Permutation_rev.
Defined.


(** X10 on the sample customer without [tenure]. *)
Lemma absent_optional_field_is_zero_witness :
  exists X,
    features parse_decimal telco_encoders (DDict customer_without_tenure) = Ok X /\
    nth_error X 1 = Some (VInt 0).
Proof.
  eexists. split; [vm_compute; reflexivity|].
  apply (absent_optional_field_is_zero parse_decimal telco_encoders
           customer_without_tenure _ "tenure" 1).
  - vm_compute. reflexivity.
  - reflexivity.
  - discriminate.
  - discriminate.
  - vm_compute. reflexivity.
Defined.


(** X12 on the sample customer, whose contract is "One year". *)
Lemma new_engaged_agrees_on_telco_vocabulary_witness :
  exists X,
    features parse_decimal telco_encoders (DDict customer) = Ok X /\
    nth_error X 19 = Some (VInt (engaged_label (VStr "One year"))).
Proof.
  eexists. split; [vm_compute; reflexivity|].
  apply (new_engaged_agrees_on_telco_vocabulary parse_decimal telco_encoders
           customer (VStr "One year")).
  - vm_compute. reflexivity.
  - vm_compute. reflexivity.
  - vm_compute. reflexivity.
Defined.

(** X13 on the sample customer: of the three services at "Yes", only
    [PhoneService] is counted. *)
Lemma total_services_on_telco_vocabulary_witness :
  exists X,
    features parse_decimal telco_encoders (DDict customer) = Ok X /\
    nth_error X 20
    = Some (VInt (Z.of_nat
         (length (filter (fun c => eq_str (cell_or_zero customer c) (label_of_code_1 c))
                    service_columns)))) /\
    length (filter (fun c => eq_str (cell_or_zero customer c) (label_of_code_1 c))
              service_columns) = 1%nat.
Proof.
  eexists. split; [vm_compute; reflexivity|]. split; [|reflexivity].
  apply (total_services_on_telco_vocabulary parse_decimal telco_encoders customer).
  - vm_compute. reflexivity.
  - intros c Hc. unfold service_columns in Hc. cbn [tl In] in Hc.
    repeat (destruct Hc as [<-|Hc]; [vm_compute; reflexivity|]). contradiction.
  - vm_compute. reflexivity.
Defined.

(** X14 on the sample customer, served without encoders. *)
Lemma unencoded_label_is_rejected_witness :
  fst (preprocess_input parse_decimal parse_decimal (DDict customer)
         state_without_encoders)
  = Ok None.
Proof.
  apply (unencoded_label_is_rejected parse_decimal parse_decimal
           state_without_encoders customer "gender" "Male").
  - in_list.
  - reflexivity.
  - reflexivity.
  - reflexivity.
Defined.

Lemma n_rows_telco_csv : n_rows 4 telco_csv.
Proof.
  intros col c H. unfold telco_csv in H. cbn [lookup] in H.
  repeat (destruct (String.eqb col _); [injection H as <-; reflexivity|]).
  discriminate.
Qed.

(** X15 on the third row of the sample frame, where all seven services
    are 'Yes' and the contract is 'Two year'. *)
Lemma feature_engineering_rows_witness :
  exists contract,
    cell "Contract" 2 telco_csv = Some contract /\
    cell "NEW_Engaged" 2 telco_engineered = Some (VInt (engaged_label contract)) /\
    cell "NEW_TotalServices" 2 telco_engineered
    = Some (VInt (Z.of_nat (length (filter (yes_at telco_csv 2) service_columns)))).
Proof.
  apply (feature_engineering_rows telco_csv telco_engineered 4 2).
  - exact n_rows_telco_csv.
  - repeat constructor.
  - vm_compute. reflexivity.
Defined.


(** X18 on the same label, sent by the sample customer. *)
Lemma serving_code_is_training_code_witness :
  exists code,
    cell "Contract" 1 telco_encoded = Some code /\
    encode_column telco_encoders "Contract" customer
    = Ok (set_item "Contract" code customer).
Proof.
  apply (serving_code_is_training_code telco_engineered telco_encoded telco_encoders
           "Contract" "One year" 1 customer).
  - vm_compute. reflexivity.
  - in_list.
  - vm_compute. reflexivity.
  - vm_compute. reflexivity.
Defined.


(** X20 on the sample frame: [Contract] has an entry, [tenure] is kept. *)
Lemma encoder_table_entries_witness :
  (lookup "Contract" telco_encoders <> None <->
   In "Contract" categorical_columns /\ lookup "Contract" telco_engineered <> None) /\
  (~ In "tenure" categorical_columns ->
   lookup "tenure" telco_encoded = lookup "tenure" telco_engineered) /\
  lookup "tenure" telco_encoded = Some (ints [1; 34; 45; 10]%Z).
Proof.
  pose proof (encoder_table_entries telco_engineered telco_encoded telco_encoders).
  split; [|split].
  - apply (H "Contract"). vm_compute. reflexivity.
  - apply (H "tenure"). vm_compute. reflexivity.
  - vm_compute. reflexivity.
Defined.

(** X21 on the sample frame. *)
Lemma training_data_target_and_shape_witness :
  exists X y,
    training_data parse_decimal telco_csv = Ok (X, y, telco_encoders) /\
    y = ints [0; 0; 1; 0]%Z /\
    length X = 21%nat /\
    exists churn contract,
      lookup "Churn" telco_csv = Some churn /\
      y = map (fun x => VInt (if eq_str x "Yes" then 1 else 0)) churn /\
      lookup "Contract" telco_csv = Some contract /\
      nth_error X 19 = Some (map (fun x => VInt (engaged_label x)) contract).
Proof.
  eexists. eexists. split; [vm_compute; reflexivity|].
  split; [reflexivity|].
  apply (training_data_target_and_shape parse_decimal telco_csv _ _ telco_encoders).
  vm_compute. reflexivity.
Defined.

(** X22 on the second row of the sample frame, at the contract. *)
Lemma raw_features_match_training_witness :
  exists Xt y Xs,
    training_data parse_decimal telco_csv = Ok (Xt, y, telco_encoders) /\
    features parse_decimal telco_encoders (DDict (row_of 1 telco_csv)) = Ok Xs /\
    exists col v,
      nth_error Xt 16 = Some col /\ nth_error col 1 = Some v /\
      nth_error Xs 16 = Some v.
Proof.
  eexists. eexists. eexists.
  split; [vm_compute; reflexivity|]. split; [vm_compute; reflexivity|].
  eapply raw_features_match_training
    with (pd_parse := parse_decimal) (csv := telco_csv) (encs := telco_encoders)
         (r := row_of 1 telco_csv) (c := "Contract").
  - vm_compute. reflexivity.
  - intros c Hc. unfold raw_columns in Hc. cbn [In] in Hc.
    repeat (destruct Hc as [<-|Hc];
            [eexists; split; vm_compute; reflexivity|]).
    contradiction.
  - vm_compute. reflexivity.
  - in_list.
  - reflexivity.
Defined.

(** X23 on the service loaded with the artifacts of the sample run. *)
Lemma model_info_counts_encoders_witness :
  exists X y,
    training_data parse_decimal telco_csv = Ok (X, y, label_encoders telco_state) /\
    fst (model_info telco_state)
    = Ok ([("model_type", JStr "RandomForestClassifier");
           ("features", JInt 15);
           ("status", JStr "loaded")], 200%Z) /\
    length X = 21%nat.
Proof.
  eexists. eexists. split; [vm_compute; reflexivity|].
  eapply model_info_counts_encoders
    with (pd_parse := parse_decimal) (csv := telco_csv)
         (s := telco_state) (clf := constant_classifier).
  - vm_compute. reflexivity.
  - reflexivity.
Defined.

(** X1 on a prediction request for the sample customer. *)
Lemma routes_always_answer_witness :
  exists (b : dict jvalue) (status : Z),
    fst (handle parse_decimal parse_decimal (PostPredict (Ok (DDict customer)))
           telco_state)
    = Ok (b, status) /\
    (status = 200 \/ status = 400 \/ status = 500)%Z /\
    (status <> 200%Z -> exists msg, b = error_body msg).
Proof.
  exact (routes_always_answer parse_decimal parse_decimal
           (PostPredict (Ok (DDict customer))) telco_state).
Defined.

(** X2 on the sample customer. *)
Lemma predict_200_iff_witness :
  fst (predict parse_decimal parse_decimal (Ok (DDict customer)) telco_state)
  = Ok ([("prediction", JInt 1);
         ("churn_probability", JFloat (Fin (7 # 10)));
         ("no_churn_probability", JFloat (Fin (3 # 10)));
         ("message", JStr "Customer will churn")], 200%Z).
Proof.
  apply (proj2 (predict_200_iff parse_decimal parse_decimal
                  (Ok (DDict customer)) telco_state _)).
  exists constant_classifier, (DDict customer).
  eexists. exists 1%Z, (Fin (3 # 10), Fin (7 # 10)).
  split; [reflexivity|]. split; [reflexivity|]. split; [reflexivity|].
  split; [vm_compute; reflexivity|].
  split; [reflexivity|]. split; reflexivity.
Defined.

(** X5 on the files of a complete run. *)
Lemma load_model_all_or_false_witness :
  exists (b : bool) (s' : app_state),
    load_model telco_files initial_state = (Ok b, s') /\
    (b = true <->
     is_ok (churn_model_pkl telco_files) && is_ok (label_encoders_pkl telco_files)
     && is_ok (scaler_pkl telco_files) = true) /\
    (b = true ->
     model s' = to_option (churn_model_pkl telco_files) /\
     Some (label_encoders s') = to_option (label_encoders_pkl telco_files) /\
     scaler s' = to_option (scaler_pkl telco_files)) /\
    (is_ok (churn_model_pkl telco_files) = false -> s' = initial_state).
Proof.
  exact (load_model_all_or_false telco_files initial_state).
Defined.

(** X16 on the sample frame, which has every column. *)
Lemma preparation_needs_columns_witness :
  is_ok (load_and_preprocess_data parse_decimal telco_csv) = true /\
  is_ok (feature_engineering telco_csv) = true.
Proof.
  destruct (preparation_needs_columns parse_decimal telco_csv) as [Hload Hfe].
  split.
  - apply (proj2 Hload). intros c Hc. cbn [In] in Hc.
    repeat (destruct Hc as [<-|Hc]; [vm_compute; discriminate|]). contradiction.
  - apply (proj2 Hfe). intros c Hc. unfold service_columns in Hc. cbn [In] in Hc.
    repeat (destruct Hc as [<-|Hc]; [vm_compute; discriminate|]). contradiction.
Defined.
